(** * Authentication core of the healthcare appointment system

    A shallow embedding of [src/auth.py] (validators, role gate,
    registration, login, OAuth callback, password reset) together with the
    part of [src/models.py] it reads and writes (the [users] table).

    Python strings are sequences of Unicode code points, dictionaries are
    finite maps, exceptions are an error monad, and the view functions are
    state-passing functions over the table, the browser session and the
    clock. The libraries the code calls (email validation, phone numbers,
    password hashing, JWT, signed tokens, the OAuth provider, the database
    backend) are the fields of one class, [Collaborators]; every statement
    holds for all of them.

    [google_login] and [forgot_password], which redirect and send mail, come
    with a second class, [Outbound]. Left out: the debugging [print] of the
    role gate. *)

From Stdlib Require Import ZArith NArith Ascii String List Bool Lia.
From stdpp Require Import base option list gmap strings pretty.

Local Open Scope Z_scope.

(** ** Python strings *)

(** A [str] is a sequence of code points. *)
Abbreviation pystr := (list N).

(** A literal of the source, as a [str]. *)
Definition py (s : string) : pystr :=
  List.map N_of_ascii (list_ascii_of_string s).

Definition str_eqb (a b : pystr) : bool := bool_decide (a = b).

(** [s.startswith(p)] *)
Fixpoint startswith (s p : pystr) : bool :=
  match p, s with
  | [], _ => true
  | _ :: _, [] => false
  | c :: p', d :: s' => N.eqb c d && startswith s' p'
  end.

(** Truth value of an optional string: [None] and [""] are false. *)
Definition truthy (o : option pystr) : bool :=
  match o with
  | Some (_ :: _) => true
  | _ => false
  end.

(** The surrogates, U+D800 to U+DFFF. A [str] can hold one on its own (the
    JSON escape ["\ud800"] gives such a string), and UTF-8 has no encoding
    for it: [s.encode()] raises [UnicodeEncodeError]. *)
Definition surrogate (c : N) : bool := (55296 <=? c)%N && (c <=? 57343)%N.

(** ** The fragment of [re] the validators use *)

Module Re.

(** Code points 10, 48..57, 65..90, 97..122. *)
Definition newline : N := 10%N.

Definition ascii_digit (c : N) : bool := (48 <=? c)%N && (c <=? 57)%N.

Definition ascii_letter (c : N) : bool :=
  ((65 <=? c)%N && (c <=? 90)%N) || ((97 <=? c)%N && (c <=? 122)%N).

Section Classes.

(** On [str] patterns [\d] is the Unicode category Nd. Below 128 that is
    exactly [0-9]; above, membership is a table of the interpreter's
    Unicode database, which the development takes as given. *)
Variable unicode_Nd : N -> bool.

(** [\d] *)
Definition digit (c : N) : bool :=
  if (c <? 128)%N then ascii_digit c else unicode_Nd c.

(** [[A-Za-z]] *)
Definition letter (c : N) : bool := ascii_letter c.

(** [[A-Za-z\d]] *)
Definition alnum (c : N) : bool := letter c || digit c.

(** [.] without DOTALL: anything but a newline. *)
Definition dot (c : N) : bool := negb (N.eqb c newline).

End Classes.

(** Patterns: anchors, lookahead, one character of a class, a greedy
    repetition [c{lo,}] of a class, concatenation. *)
Inductive regex : Type :=
| Bol
| Eol
| Ahead (r : regex)
| One (cls : N -> bool)
| Rep (cls : N -> bool) (lo : nat)
| Cat (r1 r2 : regex).

(** [cls{lo,}] at position [pos] of the subject, whose rest is [s]; the
    continuation [k] matches what follows. The longer repetition is tried
    first, as the greedy quantifier does. *)
Fixpoint rep (cls : N -> bool) (lo : nat) (pos : nat) (s : pystr)
         (k : nat -> pystr -> bool) : bool :=
  match s with
  | c :: s' =>
      (cls c && rep cls (Nat.pred lo) (S pos) s' k) || (Nat.eqb lo 0 && k pos s)
  | [] => Nat.eqb lo 0 && k pos []
  end.

(** Backtracking match of [r] at position [pos]. Without MULTILINE, [^]
    holds at position 0 only and [$] holds at the end of the subject and
    just before a newline that ends it. *)
Fixpoint run (r : regex) (pos : nat) (s : pystr)
         (k : nat -> pystr -> bool) : bool :=
  match r with
  | Bol => Nat.eqb pos 0 && k pos s
  | Eol =>
      match s with
      | [] => k pos s
      | [c] => N.eqb c newline && k pos s
      | _ => false
      end
  | Ahead r' => run r' pos s (fun _ _ => true) && k pos s
  | One cls =>
      match s with
      | c :: s' => cls c && k (S pos) s'
      | [] => false
      end
  | Rep cls lo => rep cls lo pos s k
  | Cat r1 r2 => run r1 pos s (fun pos' s' => run r2 pos' s' k)
  end.

(** [bool(re.match(r, s))] *)
Definition matches (r : regex) (s : pystr) : bool :=
  run r 0 s (fun _ _ => true).

(** [re.sub(r"\D", "", s)]: every character outside [\d] is deleted. *)
Definition sub_nondigit (unicode_Nd : N -> bool) (s : pystr) : pystr :=
  List.filter (digit unicode_Nd) s.

End Re.

(** ** Validators *)

Section Validators.

Variable unicode_Nd : N -> bool.

(** [r'^(?=.*[A-Za-z])(?=.*\d)[A-Za-z\d]{8,}$'] *)
Definition password_pattern : Re.regex :=
  Re.Cat Re.Bol
    (Re.Cat (Re.Ahead (Re.Cat (Re.Rep Re.dot 0) (Re.One Re.letter)))
       (Re.Cat (Re.Ahead (Re.Cat (Re.Rep Re.dot 0) (Re.One (Re.digit unicode_Nd))))
          (Re.Cat (Re.Rep (Re.alnum unicode_Nd) 8) Re.Eol))).

Definition validate_password (password : pystr) : bool :=
  Re.matches password_pattern password.

Definition normalize_phone (phone : option pystr) : pystr :=
  match phone with
  | None | Some [] => []
  | Some raw =>
      let phone := Re.sub_nondigit unicode_Nd raw in
      if startswith phone (py "+254") then py "0" ++ drop 4 phone
      else if startswith phone (py "254") && (length phone =? 12)%nat
           then py "0" ++ drop 3 phone
           else phone
  end.

End Validators.

(** ** Values, exceptions and responses *)

(** JSON values, as they occur in token claims, the session and response
    bodies. *)
#[warnings="-register-all"]
Inductive json : Type :=
| JNull
| JBool (b : bool)
| JNum (n : Z)
| JStr (s : pystr)
| JObj (fields : list (string * json)).

(** Python truth value. *)
Definition json_truthy (v : json) : bool :=
  match v with
  | JNull => false
  | JBool b => b
  | JNum n => negb (n =? 0)
  | JStr s => negb (bool_decide (s = []))
  | JObj fields => negb (bool_decide (fields = []))
  end.

(** [v == s] for a string [s]: values of another type are never equal to it. *)
Definition json_eq_str (v : json) (s : pystr) : bool :=
  match v with
  | JStr t => str_eqb t s
  | _ => false
  end.

(** The exception classes the handlers meet. *)
Inductive exn : Type :=
| EmailNotValidError
| TypeError
| IntegrityError
| OperationalError
| BadSignature
| SignatureExpired
| OtherError (name : string).

Inductive result (A : Type) : Type :=
| Ok (a : A)
| Raise (e : exn).
Arguments Ok {A} a.
Arguments Raise {A} e.

(** [jsonify(body), status] *)
Record response : Type := Response { status : Z; body : json }.

(** What a view function leaves to the framework: a response, or an exception
    nobody caught. *)
Inductive outcome : Type :=
| Respond (r : response)
| Uncaught (e : exn).

(** ** The users table ([src/models.py]) *)

Inductive UserRoles : Type := ADMIN | DOCTOR | NURSE | PATIENT | RECEPTIONIST.

Definition role_value (r : UserRoles) : pystr :=
  match r with
  | ADMIN => py "ADMIN"
  | DOCTOR => py "DOCTOR"
  | NURSE => py "NURSE"
  | PATIENT => py "PATIENT"
  | RECEPTIONIST => py "RECEPTIONIST"
  end.

(** The member of the enumeration a string names, if any. *)
Definition role_of_name (s : pystr) : option UserRoles :=
  List.find (fun r => str_eqb (role_value r) s) [ADMIN; DOCTOR; NURSE; PATIENT; RECEPTIONIST].

(** A committed row. The columns [userfullnames], [password], [email],
    [phone_number] and [role] are declared [nullable=False], so a row holds a
    value for each; the nullable columns ([gender], [date_of_birth],
    [address]) and [created_at] are never touched by the authentication code
    and are left out. *)
Record User : Type := {
  id : Z;
  userfullnames : pystr;
  password : pystr;
  email : pystr;
  phone_number : pystr;
  role : UserRoles
}.

(** The keyword arguments of [User(...)]: what the handlers pass can be
    [None], and the role is named by a string. *)
Record UserArgs : Type := {
  arg_userfullnames : option pystr;
  arg_password : option pystr;
  arg_email : option pystr;
  arg_phone_number : option pystr;
  arg_role : pystr
}.

(** [User.query.filter_by(email=e).first()]; comparing with [None] selects
    no row, the column being non-null. *)
Definition first_by_email (rows : list User) (e : option pystr) : option User :=
  match e with
  | Some s => List.find (fun u => str_eqb (email u) s) rows
  | None => None
  end.

(** [User.query.filter_by(phone_number=p).first()] *)
Definition first_by_phone (rows : list User) (p : option pystr) : option User :=
  match p with
  | Some s => List.find (fun u => str_eqb (phone_number u) s) rows
  | None => None
  end.

(** The next value of the integer primary key. *)
Definition next_id (rows : list User) : Z :=
  1 + List.fold_right Z.max 0 (List.map id rows).

(** ** State and the handler monad *)

(** What a request can read and write: the committed rows, the browser
    session, and the clock. *)
Record World : Type := {
  db : list User;
  session : gmap string json;
  now : Z
}.

Definition set_db (rows : list User) (w : World) : World :=
  {| db := rows; session := session w; now := now w |}.

Definition set_session (s : gmap string json) (w : World) : World :=
  {| db := db w; session := s; now := now w |}.

(** A request: query-string arguments, the JSON object of the body (a key
    whose value is [null] reads like a missing one, and the fields the
    handlers read are strings), and the bearer token if any. *)
Record Request : Type := {
  args : gmap string pystr;
  get_json : gmap string pystr;
  bearer : option pystr
}.

(** A statement either goes on with a value, returns a response from the
    view function, or raises. *)
Inductive step (A : Type) : Type :=
| Next (a : A)
| Return (r : response)
| Throw (e : exn).
Arguments Next {A} a.
Arguments Return {A} r.
Arguments Throw {A} e.

Definition M (A : Type) : Type := World -> step A * World.

#[export] Instance M_ret : MRet M := fun A a w => (Next a, w).

#[export] Instance M_bind : MBind M := fun A B f m w =>
  match m w with
  | (Next a, w') => f a w'
  | (Return r, w') => (Return r, w')
  | (Throw e, w') => (Throw e, w')
  end.

(** [return jsonify(body), status] *)
Definition return_ {A} (st : Z) (b : json) : M A :=
  fun w => (Return (Response st b), w).

(** [if c: return jsonify(body), status] *)
Definition return_if (c : bool) (st : Z) (b : json) : M unit :=
  if c then return_ st b else mret tt.

Definition raise {A} (e : exn) : M A := fun w => (Throw e, w).

(** A library call that may raise. *)
Definition lift {A} (r : result A) : M A :=
  match r with
  | Ok a => mret a
  | Raise e => raise e
  end.

Definition get_world : M World := fun w => (Next w, w).

(** [try: body / except Exception as e: handler(e)] *)
Definition try_except {A} (body : M A) (handler : exn -> M A) : M A :=
  fun w =>
    match body w with
    | (Throw e, w') => handler e w'
    | r => r
    end.

(** The view function from the outside. *)
Definition run (h : M response) (w : World) : outcome * World :=
  match h w with
  | (Next r, w') => (Respond r, w')
  | (Return r, w') => (Respond r, w')
  | (Throw e, w') => (Uncaught e, w')
  end.

(** [session.pop(key, None)] *)
Definition session_pop (key : string) : M (option json) :=
  fun w => (Next (session w !! key), set_session (delete key (session w)) w).

(** [session[key] = v] *)
Definition session_set (key : string) (v : json) : M unit :=
  fun w => (Next tt, set_session (<[key := v]> (session w)) w).

(** ** External collaborators *)

(** The libraries and services the handlers call. Their code is not part of
    the repository; each is taken as it is, with the interface the call sites
    use. *)
Class Collaborators : Type := {
  (** category Nd of the Unicode database, above code point 127 *)
  unicode_Nd : N -> bool;
  (** [email_validator.validate_email(email, check_deliverability=True)] *)
  validate_email : option pystr -> result unit;
  (** [phonenumbers]: [parse(number, region)], [None] standing for
      [NumberParseException], and [is_valid_number] *)
  ParsedNumber : Type;
  pn_parse : pystr -> pystr -> option ParsedNumber;
  pn_is_valid_number : ParsedNumber -> bool;
  (** [werkzeug.security] *)
  generate_password_hash : pystr -> pystr;
  check_password_hash : pystr -> pystr -> bool;
  (** [flask_jwt_extended]: [create_access_token(identity, additional_claims,
      expires_delta)] with the lifetime in days, and [verify_jwt_in_request()]
      followed by [get_jwt()] *)
  create_access_token : pystr -> list (string * json) -> Z -> pystr;
  verify_jwt_in_request : Request -> result (gmap string json);
  (** [itsdangerous.URLSafeTimedSerializer(Config.SECRET_KEY)]: signature
      check and decoding of a token under a salt, giving the payload and the
      time of signing *)
  timed_unsign : pystr -> pystr -> result (pystr * Z);
  (** the OAuth provider: [oauth.google.authorize_access_token()] and
      [oauth.google.get("userinfo").json()] *)
  authorize_access_token : Request -> result pystr;
  get_userinfo : Request -> result (option (gmap string pystr));
  (** whether the database backend carries out a commit that takes the table
      from the first list of rows to the second *)
  backend_commits : list User -> list User -> bool;
  (** [str(e)] *)
  exn_str : exn -> pystr
}.

Section Handlers.

Context `{C : Collaborators}.

(** *** Persistence *)

Definition found {A} (o : option A) : bool :=
  match o with
  | Some _ => true
  | None => false
  end.

(** [db.session.add(User(...)); db.session.commit()]: the role string has
    to name a member of [UserRoles], the non-null columns need a value, the
    [unique=True] columns must not collide, and the backend has to carry
    out the commit. A failed commit leaves the table as it was. *)
Definition insert_row (rows : list User) (a : UserArgs) : result (list User * User) :=
  match role_of_name (arg_role a) with
  | None => Raise (OtherError "LookupError")
  | Some r =>
      match arg_userfullnames a, arg_password a, arg_email a, arg_phone_number a with
      | Some n, Some pw, Some e, Some p =>
          if found (first_by_email rows (Some e)) || found (first_by_phone rows (Some p))
          then Raise IntegrityError
          else
            let u := {| id := next_id rows; userfullnames := n; password := pw;
                        email := e; phone_number := p; role := r |} in
            if backend_commits rows (rows ++ [u]) then Ok (rows ++ [u], u)
            else Raise OperationalError
      | _, _, _, _ => Raise IntegrityError
      end
  end.

Definition db_session_add_commit (a : UserArgs) : M User :=
  fun w =>
    match insert_row (db w) a with
    | Ok (rows, u) => (Next u, set_db rows w)
    | Raise e => (Throw e, w)
    end.

Definition with_password (h : pystr) (u : User) : User :=
  {| id := id u; userfullnames := userfullnames u; password := h;
     email := email u; phone_number := phone_number u; role := role u |}.

(** The rows after [user.password = h]: the row of [user], found by its
    primary key, has the new password. *)
Definition rows_with_password (rows : list User) (user : User) (h : pystr) : list User :=
  List.map (fun u => if id u =? id user then with_password h u else u) rows.

(** [user.password = h; db.session.commit()] *)
Definition db_commit_password (user : User) (h : pystr) : M unit :=
  fun w =>
    let rows := rows_with_password (db w) user h in
    if backend_commits (db w) rows then (Next tt, set_db rows w)
    else (Throw OperationalError, w).

(** *** Validators at their call sites *)

Definition is_valid_email (email : option pystr) : result bool :=
  match validate_email email with
  | Ok _ => Ok true
  | Raise EmailNotValidError => Ok false
  | Raise e => Raise e
  end.

Definition SAFARICOM_PREFIXES : list pystr :=
  List.map py
    ["0701"; "0702"; "0703"; "0704"; "0705"; "0706"; "0707"; "0708"; "0709";
     "0710"; "0711"; "0712"; "0713"; "0714"; "0715"; "0716"; "0717"; "0718"; "0719";
     "0720"; "0721"; "0722"; "0723"; "0724"; "0725"; "0726"; "0727"; "0728"; "0729";
     "0740"; "0741"; "0742"; "0743"; "0744"; "0745"; "0746"; "0747"; "0748"; "0749";
     "0757"; "0758"; "0768"; "0769"; "0790"; "0791"; "0792"; "0793"; "0794"; "0795";
     "0796"; "0797"; "0798"; "0799"; "0110"; "0111"; "0112"; "0113"; "0114"; "0115"]%string.

Definition is_valid_safaricom_phone (phone : option pystr) : bool :=
  let phone := normalize_phone unicode_Nd phone in
  if bool_decide (phone = []) || (length phone <? 10)%nat then false
  else
    match pn_parse phone (py "KE") with
    | None => false
    | Some parsed_number =>
        if negb (pn_is_valid_number parsed_number) then false
        else bool_decide (take 4 phone ∈ SAFARICOM_PREFIXES)
    end.

(** [validate_password(password)] where the argument may be [None], on
    which [re.match] raises. *)
Definition validate_password_arg (password : option pystr) : result bool :=
  match password with
  | Some s => Ok (validate_password unicode_Nd s)
  | None => Raise TypeError
  end.

(** Whether [s.encode()] succeeds: UTF-8 encodes every code point but the
    surrogates, so no character of [s] may be one. The surrogates are the
    code points of category Cs; a code point that the Unicode table taken as
    given, [unicode_Nd], puts in category Nd is in no other category and is
    not counted as a surrogate. *)
Definition encodable (s : pystr) : bool :=
  forallb (fun c => negb (surrogate c) || unicode_Nd c) s.

(** [generate_password_hash(password)] on a string: the library encodes the
    password before it hashes, and that is where the call can raise. *)
Definition generate_password_hash_call (password : pystr) : result pystr :=
  if encodable password then Ok (generate_password_hash password)
  else Raise (OtherError "UnicodeEncodeError").

(** [generate_password_hash(password)] on what [data.get] gave. *)
Definition generate_password_hash_arg (password : option pystr) : result pystr :=
  match password with
  | Some s => generate_password_hash_call s
  | None => Raise TypeError
  end.

(** [check_password_hash(pwhash, password)] against a stored hash, which
    the program only ever writes with [generate_password_hash]: the library
    encodes the password before it compares, and raises likewise. *)
Definition check_password_hash_call (pwhash password : pystr) : result bool :=
  if encodable password then Ok (check_password_hash pwhash password)
  else Raise (OtherError "UnicodeEncodeError").

(** *** Responses *)

Definition msg (s : string) : json := JObj [("msg"%string, JStr (py s))].
Definition error (s : string) : json := JObj [("error"%string, JStr (py s))].

(** *** Token issuer *)

Definition generate_token (user : User) : pystr :=
  create_access_token
    (py (pretty (id user)))
    [("email"%string, JStr (email user));
     ("role"%string, JStr (role_value (role user)))]
    30.

(** *** Role gate *)

(** ["role" not in claims or claims["role"] != required_role] *)
Definition role_mismatch (claims : gmap string json) (required_role : pystr) : bool :=
  negb (found (claims !! "role"%string))
  || negb (json_eq_str (default JNull (claims !! "role"%string)) required_role).

Definition role_required (required_role : pystr) (fn : Request -> M response)
           (req : Request) : M response :=
  claims ← lift (verify_jwt_in_request req);
  if role_mismatch claims required_role
  then return_ 403 (msg "Forbidden: Access Denied")
  else fn req.

(** [@jwt_required()] *)
Definition jwt_required (fn : Request -> M response) (req : Request) : M response :=
  _ ← lift (verify_jwt_in_request req);
  fn req.

(** *** Registration *)

(** [POST /register] *)
Definition register (req : Request) : M response :=
  let data := get_json req in
  let email := data !! "email"%string in
  let phone := data !! "phone"%string in
  let password := data !! "password"%string in
  let userfullnames := data !! "userfullnames"%string in
  let role := py "PATIENT" in
  email_ok ← lift (is_valid_email email);
  return_if (negb email_ok) 400 (msg "Invalid email address");;
  return_if (negb (truthy phone) || negb (is_valid_safaricom_phone phone)) 400
    (msg "Invalid phone number. Must be a valid Safaricom number.");;
  password_ok ← lift (validate_password_arg password);
  return_if (negb password_ok) 400
    (msg "Password must be at least 8 characters long, contain letters and numbers");;
  w ← get_world;
  return_if (found (first_by_email (db w) email) || found (first_by_phone (db w) phone)) 400
    (msg "Email or phone number already registered");;
  hashed_password ← lift (generate_password_hash_arg password);
  _ ← db_session_add_commit
        {| arg_email := email; arg_phone_number := phone;
           arg_password := Some hashed_password;
           arg_userfullnames := userfullnames; arg_role := role |};
  mret (Response 201 (msg "User registered successfully")).

(** The body of [register_admin], under its decorator. *)
Definition register_admin_body (req : Request) : M response :=
  let data := get_json req in
  let userfullnames := data !! "userfullnames"%string in
  let email := data !! "email"%string in
  let phone := data !! "phone"%string in
  let password := data !! "password"%string in
  email_ok ← lift (is_valid_email email);
  return_if (negb email_ok) 400 (msg "Invalid email address");;
  return_if (negb (is_valid_safaricom_phone phone)) 400
    (msg "Invalid phone number. Must be a valid Safaricom number.");;
  password_ok ← lift (validate_password_arg password);
  return_if (negb password_ok) 400
    (msg "Password must be at least 8 characters long, contain letters and numbers");;
  w ← get_world;
  return_if (found (first_by_email (db w) email) || found (first_by_phone (db w) phone)) 400
    (msg "Email or phone number already registered");;
  hashed_password ← lift (generate_password_hash_arg password);
  _ ← db_session_add_commit
        {| arg_userfullnames := userfullnames; arg_email := email;
           arg_phone_number := phone; arg_password := Some hashed_password;
           arg_role := py "ADMIN" |};
  mret (Response 201 (msg "Admin registered successfully")).

(** [POST /admin/register-admin] *)
Definition register_admin : Request -> M response :=
  role_required (py "ADMIN") register_admin_body.

(** [s.capitalize()] on the ASCII range: the first character in upper
    case, the others in lower case. *)
Definition ascii_upper (c : N) : N :=
  if (97 <=? c)%N && (c <=? 122)%N then (c - 32)%N else c.
Definition ascii_lower (c : N) : N :=
  if (65 <=? c)%N && (c <=? 90)%N then (c + 32)%N else c.
Definition capitalize (s : pystr) : pystr :=
  match s with
  | [] => []
  | c :: t => ascii_upper c :: List.map ascii_lower t
  end.

Definition register_user (role : pystr) (req : Request) : M response :=
  let data := get_json req in
  let email := data !! "email"%string in
  let phone := data !! "phone"%string in
  let password := data !! "password"%string in
  let userfullnames := data !! "userfullnames"%string in
  return_if (negb (truthy email) || negb (truthy phone)
             || negb (truthy password) || negb (truthy userfullnames)) 400
    (msg "Email, phone, password, and full names are required");;
  email_ok ← lift (is_valid_email email);
  return_if (negb email_ok) 400 (msg "Invalid email address");;
  return_if (negb (is_valid_safaricom_phone phone)) 400
    (msg "Invalid phone number. Must be a valid Safaricom number.");;
  password_ok ← lift (validate_password_arg password);
  return_if (negb password_ok) 400
    (msg "Password must be at least 8 characters long, contain letters and numbers");;
  w ← get_world;
  return_if (found (first_by_email (db w) email) || found (first_by_phone (db w) phone)) 400
    (msg "Email or phone number already registered");;
  try_except
    (hashed_password ← lift (generate_password_hash_arg password);
     _ ← db_session_add_commit
           {| arg_email := email; arg_phone_number := phone;
              arg_password := Some hashed_password;
              arg_userfullnames := userfullnames; arg_role := role |};
     mret (Response 201
             (JObj [("msg"%string,
                     JStr (capitalize role ++ py " registered successfully"))])))
    (fun e =>
       (* db.session.rollback(): nothing was committed *)
       return_ 500
         (JObj [("msg"%string, JStr (py "Internal Server Error"));
                ("error"%string, JStr (exn_str e))])).

(** [POST /admin/register-doctor], [-nurse], [-receptionist] *)
Definition register_doctor : Request -> M response :=
  jwt_required (role_required (py "ADMIN") (register_user (py "DOCTOR"))).
Definition register_nurse : Request -> M response :=
  jwt_required (role_required (py "ADMIN") (register_user (py "NURSE"))).
Definition register_receptionist : Request -> M response :=
  jwt_required (role_required (py "ADMIN") (register_user (py "RECEPTIONIST"))).

(** *** Login and logout *)

(** [POST /login] *)
Definition login (req : Request) : M response :=
  let data := get_json req in
  let req_email := data !! "email"%string in
  let req_password := data !! "password"%string in
  return_if (negb (truthy req_email) || negb (truthy req_password)) 400
    (error "Email and password are required");;
  w ← get_world;
  let user := first_by_email (db w) req_email in
  match user with
  | None => return_ 401 (error "Invalid email or password")
  | Some u =>
      password_ok ← lift (check_password_hash_call (password u) (default [] req_password));
      if negb password_ok
      then return_ 401 (error "Invalid email or password")
      else
        let access_token := generate_token u in
        mret (Response 200
                (JObj [("message"%string, JStr (py "Login successful"));
                       ("access_token"%string, JStr access_token);
                       ("user"%string,
                        JObj [("id"%string, JNum (id u));
                              ("email"%string, JStr (email u));
                              ("role"%string, JStr (role_value (role u)))])]))
  end.

(** [POST /logout] *)
Definition logout (req : Request) : M response :=
  mret (Response 200 (JObj [("message"%string, JStr (py "Logout successful"))])).

(** *** OAuth callback *)

(** [not stored_state], for what [session.pop] gave. *)
Definition stored_falsy (stored : option json) : bool :=
  match stored with
  | None => true
  | Some v => negb (json_truthy v)
  end.

(** [stored_state != received_state] *)
Definition state_differs (stored : option json) (received : option pystr) : bool :=
  match stored, received with
  | Some v, Some s => negb (json_eq_str v s)
  | None, None => false
  | _, _ => true
  end.

(** [not user_info or "email" not in user_info] *)
Definition userinfo_unusable (user_info : option (gmap string pystr)) : bool :=
  match user_info with
  | None => true
  | Some d => bool_decide (d = ∅) || negb (found (d !! "email"%string))
  end.

(** [GET /callback/google] *)
Definition google_callback (req : Request) : M response :=
  try_except
    (let received_state := args req !! "state"%string in
     stored_state ← session_pop "oauth_state";
     return_if (stored_falsy stored_state || negb (truthy received_state)
                || state_differs stored_state received_state) 400
       (error "Invalid state, possible CSRF attack");;
     token ← lift (authorize_access_token req);
     user_info ← lift (get_userinfo req);
     return_if (userinfo_unusable user_info) 400
       (error "Failed to retrieve user information");;
     let info := default ∅ user_info in
     let info_email := default [] (info !! "email"%string) in
     let info_name := default [] (info !! "name"%string) in
     w ← get_world;
     user ← match first_by_email (db w) (Some info_email) with
            | Some u => mret u
            | None =>
                db_session_add_commit
                  {| arg_email := Some info_email; arg_userfullnames := Some info_name;
                     arg_role := py "PATIENT";
                     arg_password := None; arg_phone_number := None |}
            end;
     let access_token := generate_token user in
     session_set "user_id" (JNum (id user));;
     session_set "user_email" (JStr (email user));;
     session_set "user_role" (JStr (role_value (role user)));;
     mret (Response 200
             (JObj [("msg"%string, JStr (py "Login successful"));
                    ("access_token"%string, JStr access_token)])))
    (fun e => return_ 500 (JObj [("error"%string, JStr (exn_str e))])).

(** *** Password reset *)

(** [serializer.loads(token, salt=salt, max_age=max_age)]: after the
    signature check the age of the token, the clock minus the time of
    signing, is compared with [max_age]; an older token, or one from the
    future, raises [SignatureExpired]. *)
Definition loads (token salt : pystr) (max_age : Z) : M pystr :=
  w ← get_world;
  signed ← lift (timed_unsign salt token);
  let age := now w - signed.2 in
  if age >? max_age then raise SignatureExpired
  else if age <? 0 then raise SignatureExpired
  else mret signed.1.

(** [POST /reset-password/<token>] *)
Definition reset_password (token : pystr) (req : Request) : M response :=
  email ← try_except (loads token (py "reset-password-salt") 3600)
             (fun _ => return_ 400 (msg "Invalid or expired token"));
  let data := get_json req in
  let new_password := data !! "password"%string in
  return_if (negb (truthy new_password)
             || (length (default [] new_password) <? 6)%nat) 400
    (msg "Password must be at least 6 characters long");;
  w ← get_world;
  match first_by_email (db w) (Some email) with
  | None => return_ 404 (msg "User not found")
  | Some user =>
      hashed ← lift (generate_password_hash_call (default [] new_password));
      db_commit_password user hashed;;
      mret (Response 200 (msg "Password reset successful"))
  end.

End Handlers.

(** ** Named responses and conditions of the statements below *)

Section Vocabulary.

Context `{C : Collaborators}.

(** The response of the role gate. *)
Definition forbidden : response := Response 403 (msg "Forbidden: Access Denied").

(** The response to a duplicate email or phone number. *)
Definition already_registered : response :=
  Response 400 (msg "Email or phone number already registered").

(** The response of [register_user] to a missing field. *)
Definition fields_required : response :=
  Response 400 (msg "Email, phone, password, and full names are required").

(** The response of the OAuth callback to a bad state. *)
Definition csrf_rejection : response :=
  Response 400 (error "Invalid state, possible CSRF attack").

(** The response of the password reset to a bad token. *)
Definition invalid_or_expired : response :=
  Response 400 (msg "Invalid or expired token").

(** The 401 of the login. *)
Definition invalid_credentials : response :=
  Response 401 (error "Invalid email or password").

(** The three validators accept the fields of the body. *)
Definition fields_pass_validation (req : Request) : Prop :=
  is_valid_email (get_json req !! "email"%string) = Ok true /\
  truthy (get_json req !! "phone"%string) = true /\
  is_valid_safaricom_phone (get_json req !! "phone"%string) = true /\
  validate_password_arg (get_json req !! "password"%string) = Ok true.

(** The four fields [register_user] requires are present and non-empty. *)
Definition fields_present (req : Request) : Prop :=
  truthy (get_json req !! "email"%string) = true /\
  truthy (get_json req !! "phone"%string) = true /\
  truthy (get_json req !! "password"%string) = true /\
  truthy (get_json req !! "userfullnames"%string) = true.

(** The arguments each handler gives to [User(...)]. *)
Definition new_user_args (req : Request) (hashed : pystr) (role : pystr) : UserArgs :=
  {| arg_email := get_json req !! "email"%string;
     arg_phone_number := get_json req !! "phone"%string;
     arg_password := Some hashed;
     arg_userfullnames := get_json req !! "userfullnames"%string;
     arg_role := role |}.

(** The test of the callback on the two states. *)
Definition state_rejected (req : Request) (w : World) : bool :=
  stored_falsy (session w !! "oauth_state"%string)
  || negb (truthy (args req !! "state"%string))
  || state_differs (session w !! "oauth_state"%string) (args req !! "state"%string).

(** The state once the stored value has been popped. *)
Definition consumed (w : World) : World :=
  set_session (delete "oauth_state"%string (session w)) w.

(** A request whose body has the four fields of a registration. *)
Definition registration_request (e p pw name : pystr) : Request :=
  {| args := ∅;
     get_json := {[ "email"%string := e; "phone"%string := p;
                    "password"%string := pw; "userfullnames"%string := name ]};
     bearer := None |}.

End Vocabulary.

(** ** A concrete set of collaborators *)

(** Small stand-ins for the libraries, used to run the handlers on concrete
    requests. *)
Module Sample.

(** The Arabic-Indic digits. *)
Definition nd (c : N) : bool := (1632 <=? c)%N && (c <=? 1641)%N.

(** Accepts the strings with an [@]. *)
Definition validate_email_impl (e : option pystr) : result unit :=
  match e with
  | Some s => if bool_decide (64%N ∈ s) then Ok tt else Raise EmailNotValidError
  | None => Raise (OtherError "AttributeError")
  end.

(** Parses ASCII digit strings; ten digits starting with 07 or 01 are
    valid. *)
Definition pn_parse_impl (s region : pystr) : option pystr :=
  if negb (bool_decide (s = [])) && forallb Re.ascii_digit s then Some s else None.

Definition pn_is_valid_number_impl (n : pystr) : bool :=
  (length n =? 10)%nat && (startswith n (py "07") || startswith n (py "01")).

Definition generate_password_hash_impl (p : pystr) : pystr := py "hash$" ++ p.

Definition check_password_hash_impl (h p : pystr) : bool := str_eqb h (py "hash$" ++ p).

Definition create_access_token_impl (identity : pystr) (claims : list (string * json))
           (days : Z) : pystr :=
  py "jwt-for-" ++ identity.

(** Three tokens are known: one for an administrator, one for a patient,
    one without a role claim. *)
Definition verify_jwt_in_request_impl (req : Request) : result (gmap string json) :=
  match bearer req with
  | Some t =>
      if str_eqb t (py "admin-token") then Ok {[ "role"%string := JStr (py "ADMIN") ]}
      else if str_eqb t (py "patient-token") then Ok {[ "role"%string := JStr (py "PATIENT") ]}
      else if str_eqb t (py "bare-token") then Ok ∅
      else Raise (OtherError "InvalidTokenError")
  | None => Raise (OtherError "NoAuthorizationError")
  end.

(** One reset token verifies: it was signed at time 1000 for
    [ghost@example.com]. *)
Definition timed_unsign_impl (salt token : pystr) : result (pystr * Z) :=
  if str_eqb salt (py "reset-password-salt") && str_eqb token (py "signed-token")
  then Ok (py "ghost@example.com", 1000)
  else Raise BadSignature.

Definition authorize_access_token_impl (req : Request) : result pystr :=
  match args req !! "code"%string with
  | Some _ => Ok (py "provider-token")
  | None => Raise (OtherError "OAuthError")
  end.

Definition get_userinfo_impl (req : Request) : result (option (gmap string pystr)) :=
  Ok (Some {[ "email"%string := py "jane@example.com"; "name"%string := py "Jane Doe" ]}).

#[export] Instance collaborators : Collaborators := {|
  unicode_Nd := nd;
  validate_email := validate_email_impl;
  ParsedNumber := pystr;
  pn_parse := pn_parse_impl;
  pn_is_valid_number := pn_is_valid_number_impl;
  generate_password_hash := generate_password_hash_impl;
  check_password_hash := check_password_hash_impl;
  create_access_token := create_access_token_impl;
  verify_jwt_in_request := verify_jwt_in_request_impl;
  timed_unsign := timed_unsign_impl;
  authorize_access_token := authorize_access_token_impl;
  get_userinfo := get_userinfo_impl;
  backend_commits := fun _ _ => true;
  exn_str := fun _ => py "error"
|}.

Definition empty_world : World := {| db := []; session := ∅; now := 2000 |}.

(** A request with the given JSON body. *)
Definition post (fields : list (string * pystr)) : Request :=
  {| args := ∅; get_json := list_to_map fields; bearer := None |}.

(** A table with one patient. *)
Definition jane : User :=
  {| id := 1; userfullnames := py "Jane Doe"; password := py "hash$abc12345";
     email := py "jane@example.com"; phone_number := py "0712345678";
     role := PATIENT |}.

Definition jane_world : World := {| db := [jane]; session := ∅; now := 2000 |}.

(** A request with an email and a password. *)
Definition login_request (e p : pystr) : Request :=
  {| args := ∅;
     get_json := {[ "email"%string := e; "password"%string := p ]};
     bearer := None |}.

(** A callback with the given [state] and an authorization code. *)
Definition callback_request (state : pystr) : Request :=
  {| args := {[ "state"%string := state; "code"%string := py "4/0AbCd" ]};
     get_json := ∅; bearer := None |}.

(** Jane's browser after [/login/google] stored the state ["n-1"]. *)
Definition pending_world : World :=
  {| db := [jane]; session := {[ "oauth_state"%string := JStr (py "n-1") ]}; now := 2000 |}.

(** A request with a new password. *)
Definition reset_request (p : pystr) : Request :=
  {| args := ∅; get_json := {[ "password"%string := p ]}; bearer := None |}.

End Sample.

(** ** The views that redirect and send mail *)

(** [flask_mail.Message(subject, recipients=[...])] with its [body]. *)
Record Message : Type := {
  subject : pystr;
  recipients : list pystr;
  message_body : pystr
}.

(** What [google_login] and [forgot_password] call besides the
    collaborators above. *)
Class Outbound : Type := {
  (** [Config.GOOGLE_REDIRECT_URI] *)
  GOOGLE_REDIRECT_URI : pystr;
  (** [oauth.google.authorize_redirect(redirect_uri, state=state)], which
      builds the redirect and may keep data of its own in the session *)
  authorize_redirect : pystr -> pystr -> M response;
  (** [URLSafeTimedSerializer(Config.SECRET_KEY).dumps(payload, salt=salt)]
      at a given time *)
  serializer_dumps : pystr -> pystr -> Z -> pystr;
  (** [url_for('auth.reset_password', token=token, _external=True)] *)
  url_for_reset_password : pystr -> pystr;
  (** whether the mail server takes a message; [mail.send] raises when it
      does not *)
  mail_send : Message -> result unit
}.

Section Outgoing.

Context `{C : Collaborators} `{O : Outbound}.

(** [GET /login/google]; [state] is the value [str(uuid4())] drew. *)
Definition google_login (state : pystr) : M response :=
  session_set "oauth_state" (JStr state);;
  authorize_redirect GOOGLE_REDIRECT_URI state.

(** The mail of [forgot_password] for an address, at a given time. *)
Definition reset_mail (e : pystr) (t : Z) : Message :=
  let token := serializer_dumps (py "reset-password-salt") e t in
  let reset_link := url_for_reset_password token in
  {| subject := py "Password Reset Request";
     recipients := [e];
     message_body := py "Click the link to reset your password: " ++ reset_link |}.

(** [POST /forgot-password], with the messages handed to the mail server so
    far. *)
Definition forgot_password (req : Request) (w : World) (outbox : list Message)
  : outcome * World * list Message :=
  let data := get_json req in
  let req_email := data !! "email"%string in
  let user := first_by_email (db w) req_email in
  if negb (found user)
  then (Respond (Response 404 (msg "Email not found")), w, outbox)
  else
    let m := reset_mail (default [] req_email) (now w) in
    match mail_send m with
    | Ok _ => (Respond (Response 200 (msg "Reset link sent to your email")), w, outbox ++ [m])
    | Raise e => (Uncaught e, w, outbox)
    end.

End Outgoing.

(** Equality of rows is decidable. *)
#[export] Instance UserRoles_eq_dec : EqDecision UserRoles.
Proof. solve_decision. Defined.

#[export] Instance User_eq_dec : EqDecision User.
Proof. solve_decision. Defined.

(** ** Invariant of the users table *)

(** Primary keys, emails and phone numbers are pairwise distinct. *)
Definition table_ok (rows : list User) : Prop :=
  NoDup (List.map id rows) /\
  NoDup (List.map email rows) /\
  NoDup (List.map phone_number rows).

(** How a view can change the table: not at all, by one insertion, or by
    one password update. *)
Inductive table_step `{C : Collaborators} (rows : list User) : list User -> Prop :=
| table_same : table_step rows rows
| table_insert a u rows' : insert_row rows a = Ok (rows', u) -> table_step rows rows'
| table_update user h : table_step rows (rows_with_password rows user h).

(** A view that either leaves the state alone or, for a caller whose token
    verifies with the role claim ADMIN, appends one account of role [r] for
    the email of the body. *)
Definition creates_only_for_admin `{C : Collaborators}
           (view : Request -> M response) (r : UserRoles)
           (req : Request) (w : World) : Prop :=
  (run (view req) w).2 = w \/
  exists claims u,
    verify_jwt_in_request req = Ok claims /\
    claims !! "role"%string = Some (JStr (py "ADMIN")) /\
    (run (view req) w).2 = set_db (db w ++ [u]) w /\
    role u = r /\
    get_json req !! "email"%string = Some (email u).

(** ** Collaborators with working tokens *)

(** A second set of stand-ins, whose access tokens and reset tokens can be
    read back: an access token spells out the role claim, a reset token
    starts with the sign and the magnitude of the time of signing. *)
Module Signed.

Definition role_claim (claims : list (string * json)) : pystr :=
  match List.find (fun kv => bool_decide (kv.1 = "role"%string)) claims with
  | Some (_, JStr r) => r
  | _ => []
  end.

Definition create_access_token_impl (identity : pystr) (claims : list (string * json))
           (days : Z) : pystr :=
  py "role=" ++ role_claim claims.

Definition verify_jwt_in_request_impl (req : Request) : result (gmap string json) :=
  match bearer req with
  | Some t =>
      if startswith t (py "role=") then Ok {[ "role"%string := JStr (drop 5 t) ]}
      else Raise (OtherError "InvalidTokenError")
  | None => Raise (OtherError "NoAuthorizationError")
  end.

Definition serializer_dumps_impl (salt payload : pystr) (t : Z) : pystr :=
  (if t <? 0 then 1%N else 0%N) :: Z.to_N (Z.abs t) :: payload.

Definition timed_unsign_impl (salt token : pystr) : result (pystr * Z) :=
  match token with
  | sign :: c :: payload =>
      Ok (payload, if (sign =? 1)%N then - Z.of_N c else Z.of_N c)
  | _ => Raise BadSignature
  end.

#[export] Instance collaborators : Collaborators := {|
  unicode_Nd := Sample.nd;
  validate_email := Sample.validate_email_impl;
  ParsedNumber := pystr;
  pn_parse := Sample.pn_parse_impl;
  pn_is_valid_number := Sample.pn_is_valid_number_impl;
  generate_password_hash := Sample.generate_password_hash_impl;
  check_password_hash := Sample.check_password_hash_impl;
  create_access_token := create_access_token_impl;
  verify_jwt_in_request := verify_jwt_in_request_impl;
  timed_unsign := timed_unsign_impl;
  authorize_access_token := Sample.authorize_access_token_impl;
  get_userinfo := Sample.get_userinfo_impl;
  backend_commits := fun _ _ => true;
  exn_str := fun _ => py "error"
|}.

(** The redirect keeps a record of its own in the session. *)
Definition authorize_redirect_impl (uri state : pystr) : M response :=
  session_set "_state_google" (JStr state);;
  mret (Response 302 (JObj [("location"%string, JStr (uri ++ py "?state=" ++ state))])).

#[export] Instance outbound : Outbound := {|
  GOOGLE_REDIRECT_URI := py "https://clinic.example/callback/google";
  authorize_redirect := authorize_redirect_impl;
  serializer_dumps := serializer_dumps_impl;
  url_for_reset_password := fun token => py "https://clinic.example/reset-password/" ++ token;
  mail_send := fun _ => Ok tt
|}.

End Signed.

(** * Properties *)

(** ** Proof steps shared by the handlers *)

(** Unfolds the monad of the handlers. *)
Ltac unfold_m :=
  repeat progress
    (unfold run, lift, raise, return_if, return_, get_world, try_except,
       session_pop, session_set, mbind, M_bind, mret, M_ret in *;
     cbn [negb orb andb] in *).

(** Case analysis on a test of a handler. *)
Tactic Notation "branch" constr(t) :=
  destruct t; cbn [negb orb andb]; try reflexivity.
Tactic Notation "branch" constr(t) "as" simple_intropattern(p) :=
  destruct t as p; cbn [negb orb andb]; try reflexivity.

(** Two outcomes that differ once computed. *)
Ltac differ :=
  let H := fresh in intros H; vm_compute in H; discriminate H.

(** ** Facts about the matcher *)

Lemma rep_spec cls lo pos s k :
  Re.rep cls lo pos s k = true <->
  exists n, (lo <= n <= length s)%nat /\
            Forall (fun c => cls c = true) (take n s) /\
            k (pos + n)%nat (drop n s) = true.
Proof.
  revert lo pos. induction s as [|c s IH]; intros lo pos; simpl.
  - rewrite andb_true_iff, Nat.eqb_eq. split.
    + intros [-> Hk]. exists 0%nat. rewrite Nat.add_0_r. simpl. auto.
    + intros (n & [Hlo Hn] & _ & Hk). assert (n = 0)%nat as -> by lia.
      rewrite Nat.add_0_r in Hk. simpl in Hk. split; [lia | done].
  - rewrite orb_true_iff, !andb_true_iff, Nat.eqb_eq, IH. split.
    + intros [[Hc (n & Hn & Hall & Hk)] | [-> Hk]].
      * exists (S n). simpl. split; [lia |]. split; [by constructor |].
        by replace (pos + S n)%nat with (S pos + n)%nat by lia.
      * exists 0%nat. rewrite Nat.add_0_r. simpl. split; [lia | auto].
    + intros (n & Hn & Hall & Hk). destruct n as [|n]; simpl in *.
      * right. rewrite Nat.add_0_r in Hk. split; [lia | done].
      * left. inversion Hall; subst. split; [done |].
        exists n. split; [lia |]. split; [done |].
        rewrite <- Hk. f_equal. lia.
Qed.

(** [(?=.*cls)]: some character of the class, with no newline before it. *)
Lemma ahead_spec cls pos s :
  Re.run (Re.Cat (Re.Rep Re.dot 0) (Re.One cls)) pos s (fun _ _ => true) = true <->
  exists n c, s !! n = Some c /\ cls c = true /\
              Forall (fun d => Re.dot d = true) (take n s).
Proof.
  simpl. rewrite rep_spec. split.
  - intros (n & _ & Hall & Hk). destruct (drop n s) as [|c t] eqn:Hd; [done |].
    exists n, c. rewrite andb_true_r in Hk. split; [| done].
    rewrite <- (Nat.add_0_r n), <- lookup_drop, Hd. done.
  - intros (n & c & Hl & Hc & Hall). exists n.
    split; [pose proof (lookup_lt_Some _ _ _ Hl); lia |]. split; [done |].
    rewrite <- (Nat.add_0_r n), <- lookup_drop in Hl.
    destruct (drop n s); [done |]. simpl in Hl. injection Hl as ->.
    by rewrite Hc.
Qed.

Lemma alnum_not_newline nd c : Re.alnum nd c = true -> c <> Re.newline.
Proof. intros H ->. vm_compute in H. done. Qed.

Lemma alnum_dot nd c : Re.alnum nd c = true -> Re.dot c = true.
Proof.
  intros H. unfold Re.dot. apply negb_true_iff, N.eqb_neq.
  by apply alnum_not_newline with nd.
Qed.

(** What the password pattern accepts: a body of at least eight letters and
    digits with a letter and a digit among them, followed by nothing or by
    one newline. *)
Lemma validate_password_spec nd s :
  validate_password nd s = true <->
  exists body,
    (s = body \/ s = body ++ [Re.newline]) /\
    (8 <= length body)%nat /\
    Forall (fun c => Re.alnum nd c = true) body /\
    Exists (fun c => Re.letter c = true) body /\
    Exists (fun c => Re.digit nd c = true) body.
Proof.
  unfold validate_password, Re.matches, password_pattern.
  cbn [Re.run]. rewrite !andb_true_iff.
  change (Re.rep Re.dot 0 0 s _) with
    (Re.run (Re.Cat (Re.Rep Re.dot 0) (Re.One Re.letter)) 0 s (fun _ _ => true)) at 1.
  change (Re.rep Re.dot 0 0 s _) with
    (Re.run (Re.Cat (Re.Rep Re.dot 0) (Re.One (Re.digit nd))) 0 s (fun _ _ => true)).
  rewrite !ahead_spec, rep_spec. split.
  - intros (_ & (i & a & Hi & Ha & _) & (j & d & Hj & Hd & _) & n & Hn & Hall & Hend).
    exists (take n s).
    assert (Htail : drop n s = [] \/ drop n s = [Re.newline]).
    { destruct (drop n s) as [|c [|c' t]]; [by left | | done].
      right. apply andb_true_iff in Hend as [Hc _]. apply N.eqb_eq in Hc. by subst. }
    assert (Hin : forall i c, s !! i = Some c -> c <> Re.newline -> take n s !! i = Some c).
    { intros i0 c Hl Hc. rewrite <- (take_drop n s) in Hl.
      destruct (decide (i0 < length (take n s))%nat) as [Hlt | Hge].
      - by rewrite lookup_app_l in Hl.
      - rewrite lookup_app_r in Hl by lia. destruct Htail as [Ht | Ht]; rewrite Ht in Hl.
        + by rewrite lookup_nil in Hl.
        + destruct (i0 - length (take n s))%nat; simpl in Hl; [| by rewrite lookup_nil in Hl].
          congruence. }
    split; [| split; [| split; [| split]]].
    + destruct Htail as [Ht | Ht]; [left | right];
        rewrite <- (take_drop n s) at 1; rewrite Ht; [by rewrite app_nil_r | done].
    + rewrite length_take. lia.
    + done.
    + apply Exists_exists. exists a. split; [| done].
      apply list_elem_of_lookup. exists i. apply Hin; [done |].
      intros ->. vm_compute in Ha. done.
    + apply Exists_exists. exists d. split; [| done].
      apply list_elem_of_lookup. exists j. apply Hin; [done |].
      intros ->. vm_compute in Hd. done.
  - intros (body & Hs & Hlen & Hall & Hlet & Hdig).
    assert (Hpre : forall c, c ∈ body -> exists i, s !! i = Some c /\
              Forall (fun d => Re.dot d = true) (take i s)).
    { intros c Hc. apply list_elem_of_lookup in Hc as [i Hi]. exists i.
      pose proof (lookup_lt_Some _ _ _ Hi) as Hlt.
      assert (Hdots : Forall (fun d => Re.dot d = true) (take i body)).
      { apply Forall_take. eapply Forall_impl; [exact Hall |].
        intros x Hx. by apply alnum_dot with nd. }
      destruct Hs as [-> | ->]; [done |].
      split; [by rewrite lookup_app_l |].
      by rewrite take_app_le by lia. }
    split; [done |]. split; [| split].
    + apply Exists_exists in Hlet as (a & Hin & Ha).
      apply Hpre in Hin as (i & Hi & Hd). by exists i, a.
    + apply Exists_exists in Hdig as (d & Hin & Hd).
      apply Hpre in Hin as (i & Hi & Hdots). by exists i, d.
    + exists (length body). destruct Hs as [-> | ->].
      * split; [lia |]. rewrite firstn_all, drop_all. done.
      * rewrite length_app. simpl. split; [lia |].
        rewrite take_app_length, drop_app_length. done.
Qed.

Example validate_password_abc12345 nd : validate_password nd (py "abc12345") = true.
Proof. reflexivity. Qed.

Example normalize_plus nd : normalize_phone nd (Some (py "+254712345678")) = py "0712345678".
Proof. reflexivity. Qed.

(** In a string of digits the ["+254"] test can never succeed. *)
Lemma startswith_plus_dead nd s :
  startswith (Re.sub_nondigit nd s) (py "+254") = false.
Proof.
  unfold Re.sub_nondigit. destruct (List.filter (Re.digit nd) s) as [|c t] eqn:Hf; [done |].
  assert (Hc : Re.digit nd c = true).
  { assert (Hin : In c (List.filter (Re.digit nd) s)) by (rewrite Hf; by left).
    apply filter_In in Hin. tauto. }
  change (py "+254") with [43; 50; 53; 52]%N. cbn [startswith].
  destruct (N.eqb_spec 43 c) as [<- | Hne]; [vm_compute in Hc; done | done].
Qed.

(** What [normalize_phone] computes: the digits of its argument, with a
    leading 254 replaced by 0 when there are exactly twelve of them. *)
Lemma normalize_phone_spec nd s :
  normalize_phone nd (Some s) =
  let d := List.filter (Re.digit nd) s in
  if startswith d (py "254") && (length d =? 12)%nat then py "0" ++ drop 3 d else d.
Proof.
  destruct s as [|c s]; [done |].
  unfold normalize_phone. rewrite startswith_plus_dead. done.
Qed.

Lemma normalize_phone_digits nd phone :
  Forall (fun c => Re.digit nd c = true) (normalize_phone nd phone).
Proof.
  destruct phone as [s |]; [| by constructor].
  rewrite normalize_phone_spec. cbv zeta.
  assert (Hd : Forall (fun c => Re.digit nd c = true) (List.filter (Re.digit nd) s)).
  { apply Forall_forall. intros c Hc. apply list_elem_of_In, filter_In in Hc. tauto. }
  destruct (_ && _); [| done].
  apply Forall_app. split; [by repeat constructor | by apply Forall_drop].
Qed.

(** ** Password strength *)

Example validate_password_abcdefgh nd : validate_password nd (py "abcdefgh") = false.
Proof. reflexivity. Qed.

Example validate_password_short1 nd : validate_password nd (py "short1") = false.
Proof. reflexivity. Qed.

(** A string with a character that is neither a letter nor a digit is
    rejected, unless that character is a newline closing the string. *)
Lemma validate_password_symbol nd s c :
  c ∈ s -> Re.alnum nd c = false -> c <> Re.newline -> validate_password nd s = false.
Proof.
  intros Hin Hc Hnl. apply not_true_is_false. intros Hv.
  apply validate_password_spec in Hv as (b & Hs & _ & Hall & _).
  assert (c ∈ b) as Hb.
  { destruct Hs as [-> | ->]; [done |].
    apply elem_of_app in Hin as [? | Hin]; [done |].
    apply list_elem_of_singleton in Hin. done. }
  rewrite Forall_forall in Hall. apply Hall in Hb. congruence.
Qed.

(** C1. [validate_password] accepts ["abc12345\n"]: nine characters, the
    last of them a newline, which is whitespace and neither a letter nor a
    digit. The pattern ends in [$], which also matches just before a newline
    that ends the string, so the accepted strings are not only those made of
    letters and digits. *)
Theorem validate_password_accepts_trailing_newline :
  forall nd : N -> bool,
    let s := py "abc12345" ++ [Re.newline] in
    validate_password nd s = true /\
    Re.newline ∈ s /\
    Re.letter Re.newline = false /\
    Re.digit nd Re.newline = false /\
    ~ Forall (fun c => Re.letter c = true \/ Re.digit nd c = true) s.
Proof.
  intros nd s. split; [reflexivity |]. split; [| split; [reflexivity | split; [reflexivity |]]].
  - subst s. apply elem_of_app. right. by apply list_elem_of_singleton.
  - intros Hall. rewrite Forall_forall in Hall.
    destruct (Hall Re.newline) as [H | H]; [| by vm_compute in H..].
    subst s. apply elem_of_app. right. by apply list_elem_of_singleton.
Qed.

(** ** Phone normalisation *)

Example normalize_254 nd : normalize_phone nd (Some (py "254712345678")) = py "0712345678".
Proof. reflexivity. Qed.

Example normalize_empty nd : normalize_phone nd (Some []) = [] /\ normalize_phone nd None = [].
Proof. split; reflexivity. Qed.

(** An argument that starts with [+254] keeps its 254 whenever the number of
    its digits is not twelve. *)
Lemma normalize_phone_plus_not_twelve nd s :
  length (List.filter (Re.digit nd) s) <> 9%nat ->
  normalize_phone nd (Some (py "+254" ++ s)) = py "254" ++ List.filter (Re.digit nd) s.
Proof.
  intros Hlen. rewrite normalize_phone_spec. cbv zeta.
  change (py "+254" ++ s) with (43%N :: 50%N :: 53%N :: 52%N :: s).
  change (List.filter (Re.digit nd) (43%N :: 50%N :: 53%N :: 52%N :: s))
    with (50%N :: 53%N :: 52%N :: List.filter (Re.digit nd) s).
  change (py "254") with [50; 53; 52]%N.
  cbn [startswith length]. rewrite !N.eqb_refl. cbn [andb].
  destruct (Nat.eqb_spec (S (S (S (length (List.filter (Re.digit nd) s))))) 12); [lia |].
  by rewrite andb_false_r.
Qed.

(** C2. On ["+25471234567"], an argument with the international prefix
    [+254] and eleven digits, [normalize_phone] gives back the digits
    ["25471234567"]: the prefix is not rewritten to the local leading zero,
    which would give ["071234567"]. The [+] is deleted before the test for
    ["+254"], which therefore never succeeds. *)
Theorem normalize_phone_keeps_plus_prefix :
  forall nd : N -> bool,
    normalize_phone nd (Some (py "+25471234567")) = py "25471234567" /\
    normalize_phone nd (Some (py "+25471234567")) <> py "0" ++ py "71234567" /\
    (forall s, startswith (Re.sub_nondigit nd s) (py "+254") = false).
Proof.
  intros nd. split; [reflexivity |]. split; [by vm_compute |].
  intros s. apply startswith_plus_dead.
Qed.

(** ** Carrier phone numbers *)

Section CarrierPhone.

Context `{C : Collaborators}.

Lemma is_valid_safaricom_phone_unfold phone :
  is_valid_safaricom_phone phone =
  let n := normalize_phone unicode_Nd phone in
  (10 <=? length n)%nat
  && match pn_parse n (py "KE") with
     | Some parsed => pn_is_valid_number parsed
     | None => false
     end
  && bool_decide (take 4 n ∈ SAFARICOM_PREFIXES).
Proof.
  unfold is_valid_safaricom_phone. cbv zeta.
  destruct (normalize_phone unicode_Nd phone) as [|c n] eqn:Hn.
  - done.
  - rewrite bool_decide_eq_false_2 by done. cbn [orb].
    rewrite Nat.ltb_antisym.
    destruct (10 <=? length (c :: n))%nat; cbn [negb andb]; [| done].
    destruct (pn_parse (c :: n) (py "KE")) as [parsed |]; [| done].
    by destruct (pn_is_valid_number parsed).
Qed.

(** Any rendering of 0712345678 is accepted once the library deems that
    number valid. *)
Lemma is_valid_safaricom_phone_0712 raw :
  normalize_phone unicode_Nd (Some raw) = py "0712345678" ->
  (exists parsed, pn_parse (py "0712345678") (py "KE") = Some parsed /\
                  pn_is_valid_number parsed = true) ->
  is_valid_safaricom_phone (Some raw) = true.
Proof.
  intros Hn (parsed & Hparse & Hvalid). rewrite is_valid_safaricom_phone_unfold.
  cbv zeta. rewrite Hn, Hparse, Hvalid. by vm_compute.
Qed.

(** C3. [is_valid_safaricom_phone] works on the normalised argument [n]:
    it is false when [n] has fewer than ten characters (the empty string
    included), false when the phone-number library cannot parse [n] for
    the region or deems the parsed number invalid, and otherwise true
    exactly when the first four characters of [n] are in
    [SAFARICOM_PREFIXES]. ["0712345678"] is accepted when the library
    deems it valid, and ["0700000000"] is rejected whatever the library
    says. *)
Theorem is_valid_safaricom_phone_spec :
  (forall phone,
     let n := normalize_phone unicode_Nd phone in
     ((length n < 10)%nat -> is_valid_safaricom_phone phone = false) /\
     (pn_parse n (py "KE") = None -> is_valid_safaricom_phone phone = false) /\
     (forall parsed,
        pn_parse n (py "KE") = Some parsed ->
        (pn_is_valid_number parsed = false -> is_valid_safaricom_phone phone = false) /\
        ((10 <= length n)%nat -> pn_is_valid_number parsed = true ->
         (is_valid_safaricom_phone phone = true <-> take 4 n ∈ SAFARICOM_PREFIXES)))) /\
  ((exists parsed, pn_parse (py "0712345678") (py "KE") = Some parsed /\
                   pn_is_valid_number parsed = true) ->
   is_valid_safaricom_phone (Some (py "0712345678")) = true) /\
  is_valid_safaricom_phone (Some (py "0700000000")) = false.
Proof.
  split; [| split].
  - intros phone n. rewrite is_valid_safaricom_phone_unfold. fold n. cbv zeta.
    split; [| split].
    + intros Hlt. apply Nat.leb_gt in Hlt. by rewrite Hlt.
    + intros ->. by rewrite andb_false_r.
    + intros parsed ->. split.
      * intros ->. by rewrite andb_false_r.
      * intros Hlen Hvalid. apply Nat.leb_le in Hlen. rewrite Hlen, Hvalid.
        cbn [andb]. apply bool_decide_eq_true.
  - intros Hlib. by apply is_valid_safaricom_phone_0712.
  - rewrite is_valid_safaricom_phone_unfold.
    change (normalize_phone unicode_Nd (Some (py "0700000000"))) with (py "0700000000").
    cbv zeta.
    replace (bool_decide (take 4 (py "0700000000") ∈ SAFARICOM_PREFIXES)) with false
      by (by vm_compute).
    by rewrite andb_false_r.
Qed.

End CarrierPhone.

Section SampleCarrierPhone.

#[local] Existing Instance Sample.collaborators.

(** The sample library deems 0712345678 valid. *)
Lemma is_valid_safaricom_phone_spec_witness :
  (exists parsed, pn_parse (py "0712345678") (py "KE") = Some parsed /\
                  pn_is_valid_number parsed = true) /\
  is_valid_safaricom_phone (Some (py "0712345678")) = true.
Proof.
  assert (H : exists parsed, pn_parse (py "0712345678") (py "KE") = Some parsed /\
                             pn_is_valid_number parsed = true).
  { exists (py "0712345678"). split; reflexivity. }
  split; [exact H |].
  exact (proj1 (proj2 is_valid_safaricom_phone_spec) H).
Defined.

End SampleCarrierPhone.

(** ** Role gate *)

Section RoleGate.

Context `{C : Collaborators}.

Lemma json_eq_str_true v s : json_eq_str v s = true <-> v = JStr s.
Proof.
  destruct v; simpl; try (split; [done | intros; discriminate]).
  unfold str_eqb. rewrite bool_decide_eq_true. split; [by intros -> | by intros [= ->]].
Qed.

Lemma role_mismatch_false claims required :
  role_mismatch claims required = false <-> claims !! "role"%string = Some (JStr required).
Proof.
  unfold role_mismatch. destruct (claims !! "role"%string) as [v |]; simpl.
  - rewrite negb_false_iff, json_eq_str_true. split; [by intros -> | by intros [= ->]].
  - split; discriminate.
Qed.

(** C6. For a request whose token verifies with claims [claims], the gate
    answers 403 "Forbidden" whatever the wrapped handler is, leaving the
    state untouched, if and only if [claims] has no role claim or its role
    claim differs from the required role; when the role claim is the
    required role, the gate behaves as the wrapped handler. *)
Theorem role_required_spec (required : pystr) (req : Request)
        (claims : gmap string json) (w : World) :
  verify_jwt_in_request req = Ok claims ->
  ((forall fn, run (role_required required fn req) w = (Respond forbidden, w)) <->
   (claims !! "role"%string = None \/
    exists v, claims !! "role"%string = Some v /\ v <> JStr required)) /\
  (claims !! "role"%string = Some (JStr required) ->
   forall fn, role_required required fn req w = fn req w).
Proof.
  intros Hjwt.
  assert (Hgate : forall fn, role_required required fn req w =
            if role_mismatch claims required
            then (Return forbidden, w) else fn req w).
  { intros fn. unfold role_required. rewrite Hjwt. unfold_m.
    destruct (role_mismatch claims required); reflexivity. }
  split.
  - split.
    + intros Hall.
      destruct (claims !! "role"%string) as [v |] eqn:Hrole; [right | by left].
      exists v. split; [done |]. intros ->.
      specialize (Hall (fun _ => mret (Response 200 JNull))).
      unfold run in Hall. rewrite Hgate in Hall.
      apply role_mismatch_false in Hrole. rewrite Hrole in Hall.
      unfold_m. discriminate.
    + intros Hmis fn. unfold run. rewrite Hgate.
      destruct (role_mismatch claims required) eqn:Hm. 1: done.
      apply role_mismatch_false in Hm.
      destruct Hmis as [Hnone | (v & Hv & Hne)]; congruence.
  - intros Hrole fn. rewrite Hgate.
    apply role_mismatch_false in Hrole. by rewrite Hrole.
Qed.

End RoleGate.

Section SampleRoleGate.

#[local] Existing Instance Sample.collaborators.

(** A patient's token at a handler that requires ADMIN, and at one that
    requires PATIENT. *)
Lemma role_required_spec_witness :
  let req := {| args := ∅; get_json := ∅; bearer := Some (py "patient-token") |} in
  let ok := fun _ : Request => (mret (Response 200 JNull) : M response) in
  run (role_required (py "ADMIN") ok req) Sample.empty_world
    = (Respond forbidden, Sample.empty_world) /\
  run (role_required (py "PATIENT") ok req) Sample.empty_world
    = (Respond (Response 200 JNull), Sample.empty_world).
Proof.
  intros req ok.
  pose proof (role_required_spec (py "ADMIN") req
                {[ "role"%string := JStr (py "PATIENT") ]} Sample.empty_world eq_refl)
    as [[_ Hdeny] _].
  pose proof (role_required_spec (py "PATIENT") req
                {[ "role"%string := JStr (py "PATIENT") ]} Sample.empty_world eq_refl)
    as [_ Hpass].
  split.
  - apply Hdeny. right. exists (JStr (py "PATIENT")). split; [reflexivity | discriminate].
  - unfold run. rewrite Hpass; reflexivity.
Defined.

End SampleRoleGate.

(** ** Passwords the hasher can encode *)

Section Encoding.

Context `{C : Collaborators}.

Lemma alnum_encodable nd c :
  Re.alnum nd c = true -> negb (surrogate c) || nd c = true.
Proof.
  unfold Re.alnum, Re.letter, Re.digit, Re.ascii_letter, Re.ascii_digit, surrogate.
  intros H. destruct (N.ltb_spec c 128) as [Hlow | Hhigh].
  - assert ((55296 <=? c)%N = false) as -> by (apply N.leb_gt; lia). done.
  - destruct (nd c); [by rewrite orb_true_r |].
    rewrite orb_false_r in H.
    assert ((55296 <=? c)%N = false) as ->; [| done].
    apply N.leb_gt.
    apply orb_true_iff in H as [H | H]; apply andb_true_iff in H as [_ H];
      apply N.leb_le in H; lia.
Qed.

(** A password the pattern accepts can be encoded: it holds letters, digits
    and at most a final newline. *)
Lemma validate_password_encodable pw :
  validate_password unicode_Nd pw = true -> encodable pw = true.
Proof.
  intros (body & Hs & _ & Hall & _)%validate_password_spec.
  assert (Hbody : encodable body = true).
  { unfold encodable. apply forallb_forall. intros c Hc.
    apply alnum_encodable. rewrite Forall_forall in Hall.
    by apply Hall, list_elem_of_In. }
  destruct Hs as [-> | ->]; [done |].
  unfold encodable in *. rewrite forallb_app, Hbody. done.
Qed.

(** So hashing a password that passed [validate_password] does not raise. *)
Lemma generate_password_hash_arg_valid password :
  validate_password_arg password = Ok true ->
  exists pw, password = Some pw /\ encodable pw = true /\
             generate_password_hash_arg password = Ok (generate_password_hash pw).
Proof.
  destruct password as [pw |]; [| discriminate]. cbn. intros [= Hvalid].
  apply validate_password_encodable in Hvalid as Henc.
  exists pw. unfold generate_password_hash_call. by rewrite Henc.
Qed.

End Encoding.

(** ** Registration *)

Section Registration.

Context `{C : Collaborators}.

Lemma found_first_by_email rows e :
  found (first_by_email rows (Some e)) = true <-> exists u, u ∈ rows /\ email u = e.
Proof.
  unfold first_by_email. induction rows as [|u rows IH]; simpl.
  - split; [discriminate | intros (u & Hin & _); by apply elem_of_nil in Hin].
  - unfold str_eqb at 1. case_bool_decide as Heq.
    + split; [| done]. intros _. exists u. split; [by left | done].
    + rewrite IH. split.
      * intros (v & Hin & Hv). exists v. split; [by right | done].
      * intros (v & Hin & Hv). apply elem_of_cons in Hin as [-> | Hin]; [done |].
        by exists v.
Qed.

Lemma found_first_by_phone rows p :
  found (first_by_phone rows (Some p)) = true <-> exists u, u ∈ rows /\ phone_number u = p.
Proof.
  unfold first_by_phone. induction rows as [|u rows IH]; simpl.
  - split; [discriminate | intros (u & Hin & _); by apply elem_of_nil in Hin].
  - unfold str_eqb at 1. case_bool_decide as Heq.
    + split; [| done]. intros _. exists u. split; [by left | done].
    + rewrite IH. split.
      * intros (v & Hin & Hv). exists v. split; [by right | done].
      * intros (v & Hin & Hv). apply elem_of_cons in Hin as [-> | Hin]; [done |].
        by exists v.
Qed.

(** [register], statement by statement. *)
Lemma register_run req w :
  run (register req) w =
  let data := get_json req in
  match is_valid_email (data !! "email"%string) with
  | Raise e => (Uncaught e, w)
  | Ok false => (Respond (Response 400 (msg "Invalid email address")), w)
  | Ok true =>
      if negb (truthy (data !! "phone"%string))
         || negb (is_valid_safaricom_phone (data !! "phone"%string))
      then (Respond (Response 400
              (msg "Invalid phone number. Must be a valid Safaricom number.")), w)
      else
        match validate_password_arg (data !! "password"%string) with
        | Raise e => (Uncaught e, w)
        | Ok false =>
            (Respond (Response 400
               (msg "Password must be at least 8 characters long, contain letters and numbers")), w)
        | Ok true =>
            if found (first_by_email (db w) (data !! "email"%string))
               || found (first_by_phone (db w) (data !! "phone"%string))
            then (Respond already_registered, w)
            else
              match generate_password_hash_arg (data !! "password"%string) with
              | Raise e => (Uncaught e, w)
              | Ok hashed =>
                  match insert_row (db w) (new_user_args req hashed (py "PATIENT")) with
                  | Ok (rows, _) =>
                      (Respond (Response 201 (msg "User registered successfully")),
                       set_db rows w)
                  | Raise e => (Uncaught e, w)
                  end
              end
        end
  end.
Proof.
  unfold register, db_session_add_commit, new_user_args. cbv zeta. unfold_m.
  branch (is_valid_email (get_json req !! "email"%string)) as [[|] | e].
  branch (negb (truthy (get_json req !! "phone"%string))
          || negb (is_valid_safaricom_phone (get_json req !! "phone"%string))).
  branch (validate_password_arg (get_json req !! "password"%string)) as [[|] | e].
  branch (found (first_by_email (db w) (get_json req !! "email"%string))
          || found (first_by_phone (db w) (get_json req !! "phone"%string))).
  branch (generate_password_hash_arg (get_json req !! "password"%string)) as [h | e].
  by destruct (insert_row _ _) as [[rows u] | e].
Qed.

(** [register_admin], under its decorator, statement by statement. *)
Lemma register_admin_body_run req w :
  run (register_admin_body req) w =
  let data := get_json req in
  match is_valid_email (data !! "email"%string) with
  | Raise e => (Uncaught e, w)
  | Ok false => (Respond (Response 400 (msg "Invalid email address")), w)
  | Ok true =>
      if negb (is_valid_safaricom_phone (data !! "phone"%string))
      then (Respond (Response 400
              (msg "Invalid phone number. Must be a valid Safaricom number.")), w)
      else
        match validate_password_arg (data !! "password"%string) with
        | Raise e => (Uncaught e, w)
        | Ok false =>
            (Respond (Response 400
               (msg "Password must be at least 8 characters long, contain letters and numbers")), w)
        | Ok true =>
            if found (first_by_email (db w) (data !! "email"%string))
               || found (first_by_phone (db w) (data !! "phone"%string))
            then (Respond already_registered, w)
            else
              match generate_password_hash_arg (data !! "password"%string) with
              | Raise e => (Uncaught e, w)
              | Ok hashed =>
                  match insert_row (db w) (new_user_args req hashed (py "ADMIN")) with
                  | Ok (rows, _) =>
                      (Respond (Response 201 (msg "Admin registered successfully")),
                       set_db rows w)
                  | Raise e => (Uncaught e, w)
                  end
              end
        end
  end.
Proof.
  unfold register_admin_body, db_session_add_commit, new_user_args. cbv zeta. unfold_m.
  branch (is_valid_email (get_json req !! "email"%string)) as [[|] | e].
  branch (is_valid_safaricom_phone (get_json req !! "phone"%string)).
  branch (validate_password_arg (get_json req !! "password"%string)) as [[|] | e].
  branch (found (first_by_email (db w) (get_json req !! "email"%string))
          || found (first_by_phone (db w) (get_json req !! "phone"%string))).
  branch (generate_password_hash_arg (get_json req !! "password"%string)) as [h | e].
  by destruct (insert_row _ _) as [[rows u] | e].
Qed.

(** [register_user], statement by statement. *)
Lemma register_user_run role req w :
  run (register_user role req) w =
  let data := get_json req in
  if negb (truthy (data !! "email"%string)) || negb (truthy (data !! "phone"%string))
     || negb (truthy (data !! "password"%string))
     || negb (truthy (data !! "userfullnames"%string))
  then (Respond fields_required, w)
  else
    match is_valid_email (data !! "email"%string) with
    | Raise e => (Uncaught e, w)
    | Ok false => (Respond (Response 400 (msg "Invalid email address")), w)
    | Ok true =>
        if negb (is_valid_safaricom_phone (data !! "phone"%string))
        then (Respond (Response 400
                (msg "Invalid phone number. Must be a valid Safaricom number.")), w)
        else
          match validate_password_arg (data !! "password"%string) with
          | Raise e => (Uncaught e, w)
          | Ok false =>
              (Respond (Response 400
                 (msg "Password must be at least 8 characters long, contain letters and numbers")), w)
          | Ok true =>
              if found (first_by_email (db w) (data !! "email"%string))
                 || found (first_by_phone (db w) (data !! "phone"%string))
              then (Respond already_registered, w)
              else
                let internal e :=
                  (Respond (Response 500
                     (JObj [("msg"%string, JStr (py "Internal Server Error"));
                            ("error"%string, JStr (exn_str e))])), w) in
                match generate_password_hash_arg (data !! "password"%string) with
                | Raise e => internal e
                | Ok hashed =>
                    match insert_row (db w) (new_user_args req hashed role) with
                    | Ok (rows, _) =>
                        (Respond (Response 201
                           (JObj [("msg"%string,
                                   JStr (capitalize role ++ py " registered successfully"))])),
                         set_db rows w)
                    | Raise e => internal e
                    end
                end
          end
    end.
Proof.
  unfold register_user, db_session_add_commit, new_user_args. cbv zeta. unfold_m.
  branch (negb (truthy (get_json req !! "email"%string))
          || negb (truthy (get_json req !! "phone"%string))
          || negb (truthy (get_json req !! "password"%string))
          || negb (truthy (get_json req !! "userfullnames"%string))).
  branch (is_valid_email (get_json req !! "email"%string)) as [[|] | e].
  branch (is_valid_safaricom_phone (get_json req !! "phone"%string)).
  branch (validate_password_arg (get_json req !! "password"%string)) as [[|] | e].
  branch (found (first_by_email (db w) (get_json req !! "email"%string))
          || found (first_by_phone (db w) (get_json req !! "phone"%string))).
  branch (generate_password_hash_arg (get_json req !! "password"%string)) as [h | e].
  by destruct (insert_row _ _) as [[rows u] | e].
Qed.

End Registration.

Section RegistrationOutcomes.

Context `{C : Collaborators}.


(** What a successful insertion did. *)
Lemma insert_row_ok rows a rows' u :
  insert_row rows a = Ok (rows', u) ->
  rows' = rows ++ [u] /\
  arg_email a = Some (email u) /\
  arg_phone_number a = Some (phone_number u) /\
  arg_password a = Some (password u) /\
  arg_userfullnames a = Some (userfullnames u) /\
  role_of_name (arg_role a) = Some (role u) /\
  id u = next_id rows /\
  first_by_email rows (Some (email u)) = None /\
  first_by_phone rows (Some (phone_number u)) = None.
Proof.
  unfold insert_row. intros H.
  destruct (role_of_name (arg_role a)) as [r |]; [| discriminate].
  destruct (arg_userfullnames a) as [n |]; [| discriminate].
  destruct (arg_password a) as [pw |]; [| discriminate].
  destruct (arg_email a) as [e |]; [| discriminate].
  destruct (arg_phone_number a) as [p |]; [| discriminate].
  destruct (first_by_email rows (Some e)) as [? |] eqn:He; [discriminate |].
  destruct (first_by_phone rows (Some p)) as [? |] eqn:Hp; [discriminate |].
  cbn [found orb] in H. destruct (backend_commits _ _); [| discriminate].
  injection H as <- <-. cbn. by repeat split.
Qed.

(** A duplicate in the table makes the combined uniqueness test succeed. *)
Lemma duplicate_found req w :
  (exists u, u ∈ db w /\
     (get_json req !! "email"%string = Some (email u) \/
      get_json req !! "phone"%string = Some (phone_number u))) ->
  found (first_by_email (db w) (get_json req !! "email"%string))
  || found (first_by_phone (db w) (get_json req !! "phone"%string)) = true.
Proof.
  intros (u & Hin & [He | Hp]); apply orb_true_iff.
  - left. rewrite He. apply found_first_by_email. by exists u.
  - right. rewrite Hp. apply found_first_by_phone. by exists u.
Qed.

(** C4. When the fields of the request pass the validators and the table
    already has an account with the same email or with the same phone
    number, registration answers 400 "Email or phone number already
    registered", the same for both kinds of duplicate, and the state is what
    it was: nothing is added. This holds for [register], for the body of
    [register_admin], and, with the four fields present, for [register_user]
    at every role. *)
Theorem registration_conflict (req : Request) (w : World) :
  fields_pass_validation req ->
  (exists u, u ∈ db w /\
     (get_json req !! "email"%string = Some (email u) \/
      get_json req !! "phone"%string = Some (phone_number u))) ->
  run (register req) w = (Respond already_registered, w) /\
  run (register_admin_body req) w = (Respond already_registered, w) /\
  (forall role, fields_present req ->
     run (register_user role req) w = (Respond already_registered, w)).
Proof.
  intros (Hemail & Hphone & Hcarrier & Hpw) Hdup.
  apply duplicate_found in Hdup.
  split; [| split].
  - rewrite register_run. cbv zeta.
    by rewrite Hemail, Hphone, Hcarrier, Hpw, Hdup.
  - rewrite register_admin_body_run. cbv zeta.
    by rewrite Hemail, Hcarrier, Hpw, Hdup.
  - intros role (He & Hp & Hw & Hn). rewrite register_user_run. cbv zeta.
    by rewrite He, Hp, Hw, Hn, Hemail, Hcarrier, Hpw, Hdup.
Qed.

(** With the four fields present and valid, no duplicate and a commit that
    succeeds, [register_admin] and [register_user] at ADMIN do the same. *)
Lemma register_admin_agrees_when_present req w rows u :
  fields_present req ->
  fields_pass_validation req ->
  found (first_by_email (db w) (get_json req !! "email"%string))
  || found (first_by_phone (db w) (get_json req !! "phone"%string)) = false ->
  (forall h, insert_row (db w) (new_user_args req h (py "ADMIN")) = Ok (rows h, u h)) ->
  run (register_admin_body req) w = run (register_user (py "ADMIN") req) w.
Proof.
  intros (He & Hp & Hw & Hn) (Hemail & _ & Hcarrier & Hpw) Hfree Hins.
  rewrite register_admin_body_run, register_user_run. cbv zeta.
  rewrite He, Hp, Hw, Hn, Hemail, Hcarrier, Hpw, Hfree. cbn [negb orb].
  apply generate_password_hash_arg_valid in Hpw as (pw & _ & _ & ->).
  by rewrite Hins.
Qed.

(** A commit that raises escapes [register_admin] but is answered with a
    500 by [register_user]. *)
Lemma register_admin_commit_failure req w e :
  fields_present req ->
  fields_pass_validation req ->
  found (first_by_email (db w) (get_json req !! "email"%string))
  || found (first_by_phone (db w) (get_json req !! "phone"%string)) = false ->
  (forall h role, insert_row (db w) (new_user_args req h role) = Raise e) ->
  run (register_admin_body req) w = (Uncaught e, w) /\
  run (register_user (py "ADMIN") req) w =
    (Respond (Response 500
       (JObj [("msg"%string, JStr (py "Internal Server Error"));
              ("error"%string, JStr (exn_str e))])), w).
Proof.
  intros (He & Hp & Hw & Hn) (Hemail & _ & Hcarrier & Hpw) Hfree Hins.
  rewrite register_admin_body_run, register_user_run. cbv zeta.
  rewrite He, Hp, Hw, Hn, Hemail, Hcarrier, Hpw, Hfree. cbn [negb orb].
  apply generate_password_hash_arg_valid in Hpw as (pw & _ & _ & ->).
  by rewrite !Hins.
Qed.

(** C5. On a request that lacks one of the four fields (absent, null or
    empty), [register_user] at role ADMIN answers 400 "Email, phone,
    password, and full names are required" and changes nothing, whereas the
    body of [register_admin] never gives that answer: it has no
    required-field check. The two do not behave identically. *)
Theorem register_admin_lacks_required_fields (req : Request) (w : World) :
  ~ fields_present req ->
  run (register_user (py "ADMIN") req) w = (Respond fields_required, w) /\
  (run (register_admin_body req) w).1 <> Respond fields_required /\
  run (register_admin_body req) w <> run (register_user (py "ADMIN") req) w.
Proof.
  intros Hmissing.
  assert (Huser : run (register_user (py "ADMIN") req) w = (Respond fields_required, w)).
  { rewrite register_user_run. cbv zeta.
    destruct (truthy (get_json req !! "email"%string)) eqn:He; [| done].
    destruct (truthy (get_json req !! "phone"%string)) eqn:Hp; [| done].
    destruct (truthy (get_json req !! "password"%string)) eqn:Hw; [| done].
    destruct (truthy (get_json req !! "userfullnames"%string)) eqn:Hn; [| done].
    destruct Hmissing. by repeat split. }
  assert (Hadmin : (run (register_admin_body req) w).1 <> Respond fields_required).
  { rewrite register_admin_body_run. cbv zeta.
    destruct (is_valid_email _) as [[|] | e]; [| differ..].
    destruct (is_valid_safaricom_phone _); cbn [negb]; [| differ].
    destruct (validate_password_arg _) as [[|] | e]; [| differ..].
    destruct (found _ || found _); [differ |].
    destruct (generate_password_hash_arg _) as [h | e]; [| differ].
    destruct (insert_row _ _) as [[rows u] | e]; differ. }
  split; [done |]. split; [done |].
  intros Heq. rewrite Huser in Heq. by rewrite Heq in Hadmin.
Qed.

End RegistrationOutcomes.

Section RawPhone.

Context `{C : Collaborators}.




End RawPhone.

Section SampleRegistration.

#[local] Existing Instance Sample.collaborators.

(** A second sign-up with Jane's phone number and a new email. *)
Lemma registration_conflict_witness :
  let req := registration_request (py "john@example.com") (py "0712345678")
               (py "abc12345") (py "John Doe") in
  run (register req) Sample.jane_world = (Respond already_registered, Sample.jane_world) /\
  run (register_admin_body req) Sample.jane_world = (Respond already_registered, Sample.jane_world) /\
  run (register_user (py "DOCTOR") req) Sample.jane_world = (Respond already_registered, Sample.jane_world).
Proof.
  intros req.
  assert (Hvalid : fields_pass_validation req) by (by vm_compute).
  assert (Hdup : exists u, u ∈ db Sample.jane_world /\
            (get_json req !! "email"%string = Some (email u) \/
             get_json req !! "phone"%string = Some (phone_number u))).
  { exists Sample.jane. split; [by left | by right]. }
  destruct (registration_conflict req Sample.jane_world Hvalid Hdup) as (H1 & H2 & H3).
  split; [exact H1 |]. split; [exact H2 |].
  apply H3. by vm_compute.
Defined.

(** A body without any field. *)
Lemma register_admin_lacks_required_fields_witness :
  let req := Sample.post [] in
  run (register_user (py "ADMIN") req) Sample.empty_world
    = (Respond fields_required, Sample.empty_world) /\
  run (register_admin_body req) Sample.empty_world
    <> run (register_user (py "ADMIN") req) Sample.empty_world.
Proof.
  intros req.
  assert (Hmissing : ~ fields_present req).
  { intros (H & _). vm_compute in H. discriminate H. }
  destruct (register_admin_lacks_required_fields req Sample.empty_world Hmissing)
    as (H1 & _ & H3).
  split; [exact H1 | exact H3].
Defined.

(** An empty full name: [register_admin] creates the account and answers
    201, [register_user] at ADMIN answers 400. *)
Example register_admin_empty_name :
  let req := registration_request (py "root@example.com") (py "0712345678")
               (py "abc12345") [] in
  run (register_admin_body req) Sample.empty_world
    = (Respond (Response 201 (msg "Admin registered successfully")),
       set_db [{| id := 1; userfullnames := []; password := py "hash$abc12345";
                  email := py "root@example.com"; phone_number := py "0712345678";
                  role := ADMIN |}] Sample.empty_world) /\
  run (register_user (py "ADMIN") req) Sample.empty_world
    = (Respond fields_required, Sample.empty_world).
Proof. split; by vm_compute. Qed.


End SampleRegistration.

(** ** Login *)

Section Login.

Context `{C : Collaborators}.

(** [login], statement by statement. *)
Lemma login_run req w :
  run (login req) w =
  let data := get_json req in
  if negb (truthy (data !! "email"%string)) || negb (truthy (data !! "password"%string))
  then (Respond (Response 400 (error "Email and password are required")), w)
  else
    match first_by_email (db w) (data !! "email"%string) with
    | None => (Respond invalid_credentials, w)
    | Some u =>
        match check_password_hash_call (password u)
                (default [] (data !! "password"%string)) with
        | Raise e => (Uncaught e, w)
        | Ok true =>
          (Respond (Response 200
             (JObj [("message"%string, JStr (py "Login successful"));
                    ("access_token"%string, JStr (generate_token u));
                    ("user"%string,
                     JObj [("id"%string, JNum (id u));
                           ("email"%string, JStr (email u));
                           ("role"%string, JStr (role_value (role u)))])])), w)
        | Ok false => (Respond invalid_credentials, w)
        end
    end.
Proof.
  unfold login. cbv zeta. unfold_m.
  branch (negb (truthy (get_json req !! "email"%string))
          || negb (truthy (get_json req !! "password"%string))).
  branch (first_by_email (db w) (get_json req !! "email"%string)) as [u |].
  by destruct (check_password_hash_call _ _) as [[|] | e].
Qed.

(** When the hasher returns, the two refusals are one: an email that matches
    no account and an email that matches an account whose password does not
    verify get the same response, status 401 with the body
    [{"error": "Invalid email or password"}], and neither changes the
    state. *)
Lemma login_uniform_401 (req1 req2 : Request) (w1 w2 : World) (u : User) :
  truthy (get_json req1 !! "email"%string) = true ->
  truthy (get_json req1 !! "password"%string) = true ->
  truthy (get_json req2 !! "email"%string) = true ->
  truthy (get_json req2 !! "password"%string) = true ->
  first_by_email (db w1) (get_json req1 !! "email"%string) = None ->
  first_by_email (db w2) (get_json req2 !! "email"%string) = Some u ->
  check_password_hash_call (password u) (default [] (get_json req2 !! "password"%string))
    = Ok false ->
  run (login req1) w1 = (Respond invalid_credentials, w1) /\
  run (login req2) w2 = (Respond invalid_credentials, w2) /\
  (run (login req1) w1).1 = (run (login req2) w2).1 /\
  status invalid_credentials = 401.
Proof.
  intros He1 Hp1 He2 Hp2 Hnone Hsome Hwrong.
  assert (H1 : run (login req1) w1 = (Respond invalid_credentials, w1)).
  { rewrite login_run. cbv zeta. by rewrite He1, Hp1, Hnone. }
  assert (H2 : run (login req2) w2 = (Respond invalid_credentials, w2)).
  { rewrite login_run. cbv zeta. by rewrite He2, Hp2, Hsome, Hwrong. }
  split; [done |]. split; [done |]. split; [| done]. by rewrite H1, H2.
Qed.

(** C10. The login endpoint does reveal whether an account exists. Take one
    password that cannot be encoded (it holds a lone surrogate) and send it
    with two emails to the same table. For the email that matches no account
    the hasher is not called and the answer is the 401 response
    "Invalid email or password". For the email that matches an account
    [check_password_hash] is called and raises; nothing in [login] catches
    the exception, so no 401 is produced. The two outcomes differ, and the
    state is unchanged in both. *)
Theorem login_reveals_account (req1 req2 : Request) (w : World) (u : User) :
  truthy (get_json req1 !! "email"%string) = true ->
  truthy (get_json req2 !! "email"%string) = true ->
  truthy (get_json req1 !! "password"%string) = true ->
  get_json req2 !! "password"%string = get_json req1 !! "password"%string ->
  encodable (default [] (get_json req1 !! "password"%string)) = false ->
  first_by_email (db w) (get_json req1 !! "email"%string) = None ->
  first_by_email (db w) (get_json req2 !! "email"%string) = Some u ->
  run (login req1) w = (Respond invalid_credentials, w) /\
  status invalid_credentials = 401 /\
  run (login req2) w = (Uncaught (OtherError "UnicodeEncodeError"), w) /\
  (run (login req1) w).1 <> (run (login req2) w).1.
Proof.
  intros He1 He2 Hp1 Hsame Hbad Hnone Hsome.
  assert (H1 : run (login req1) w = (Respond invalid_credentials, w)).
  { rewrite login_run. cbv zeta. by rewrite He1, Hp1, Hnone. }
  assert (H2 : run (login req2) w = (Uncaught (OtherError "UnicodeEncodeError"), w)).
  { rewrite login_run. cbv zeta. rewrite Hsame, He2, Hp1, Hsome.
    unfold check_password_hash_call. by rewrite Hbad. }
  split; [done |]. split; [done |]. split; [done |]. by rewrite H1, H2.
Qed.

End Login.

Section SampleLogin.

#[local] Existing Instance Sample.collaborators.

(** An unknown email, and Jane's email with a wrong password. *)
Lemma login_uniform_401_sample :
  run (login (Sample.login_request (py "nobody@example.com") (py "abc12345"))) Sample.jane_world
    = (Respond invalid_credentials, Sample.jane_world) /\
  run (login (Sample.login_request (py "jane@example.com") (py "wrong123"))) Sample.jane_world
    = (Respond invalid_credentials, Sample.jane_world).
Proof.
  destruct (login_uniform_401
              (Sample.login_request (py "nobody@example.com") (py "abc12345"))
              (Sample.login_request (py "jane@example.com") (py "wrong123"))
              Sample.jane_world Sample.jane_world Sample.jane
              eq_refl eq_refl eq_refl eq_refl)
    as (H1 & H2 & _); [by vm_compute.. |].
  split; [exact H1 | exact H2].
Defined.

(** The password U+D800 followed by [abc12345], as the JSON text
    ["\ud800abc12345"] decodes, sent with an unknown email and with Jane's. *)
Lemma login_reveals_account_witness :
  let pw := (55296 :: py "abc12345")%N in
  run (login (Sample.login_request (py "nobody@example.com") pw)) Sample.jane_world
    = (Respond invalid_credentials, Sample.jane_world) /\
  run (login (Sample.login_request (py "jane@example.com") pw)) Sample.jane_world
    = (Uncaught (OtherError "UnicodeEncodeError"), Sample.jane_world).
Proof.
  intros pw.
  assert (Hbad : encodable
                   (default [] (get_json (Sample.login_request (py "nobody@example.com") pw)
                                  !! "password"%string)) = false)
    by (by vm_compute).
  assert (Hnone : first_by_email (db Sample.jane_world)
                    (get_json (Sample.login_request (py "nobody@example.com") pw)
                       !! "email"%string) = None)
    by (by vm_compute).
  assert (Hsome : first_by_email (db Sample.jane_world)
                    (get_json (Sample.login_request (py "jane@example.com") pw)
                       !! "email"%string) = Some Sample.jane)
    by (by vm_compute).
  destruct (login_reveals_account
              (Sample.login_request (py "nobody@example.com") pw)
              (Sample.login_request (py "jane@example.com") pw)
              Sample.jane_world Sample.jane
              eq_refl eq_refl eq_refl eq_refl Hbad Hnone Hsome)
    as (H1 & _ & H2 & _).
  split; [exact H1 | exact H2].
Defined.

End SampleLogin.

(** ** OAuth callback *)

Section Callback.

Context `{C : Collaborators}.

Lemma google_callback_rejects req w :
  state_rejected req w = true ->
  run (google_callback req) w = (Respond csrf_rejection, consumed w).
Proof.
  unfold state_rejected, google_callback. intros Hrej. cbv zeta. unfold_m.
  by rewrite Hrej.
Qed.

Lemma google_callback_consumes req w :
  session (run (google_callback req) w).2 !! "oauth_state"%string = None.
Proof.
  destruct (state_rejected req w) eqn:Hrej.
  { rewrite google_callback_rejects by done. cbn. apply lookup_delete_eq. }
  unfold state_rejected in Hrej.
  unfold google_callback, db_session_add_commit. cbv zeta. unfold_m. rewrite Hrej.
  cbn [set_session session db now].
  branch (authorize_access_token req) as [token | e];
    [| cbn; apply lookup_delete_eq].
  branch (get_userinfo req) as [user_info | e];
    [| cbn; apply lookup_delete_eq].
  branch (userinfo_unusable user_info); [cbn; apply lookup_delete_eq |].
  destruct (first_by_email _ _) as [u |].
  - cbn. by rewrite !lookup_insert_ne, lookup_delete_eq.
  - destruct (insert_row _ _) as [[rows u] | e]; cbn.
    + by rewrite !lookup_insert_ne, lookup_delete_eq.
    + apply lookup_delete_eq.
Qed.

(** C7. The callback removes the stored state from the session whatever
    happens next. If the session holds no state, or the query string has no
    [state], or the stored state is not the [state] of the query string, the
    callback answers 400 "Invalid state, possible CSRF attack", whatever the
    provider would say of the authorization code, and the table is
    unchanged. So a callback that follows another one, with no new state
    stored in between, gets the CSRF answer too, whatever state it
    presents. *)
Theorem google_callback_state (req : Request) (w : World) :
  session (run (google_callback req) w).2 !! "oauth_state"%string = None /\
  (session w !! "oauth_state"%string = None \/
   args req !! "state"%string = None \/
   session w !! "oauth_state"%string <> JStr <$> (args req !! "state"%string) ->
   run (google_callback req) w = (Respond csrf_rejection, consumed w) /\
   db (consumed w) = db w) /\
  (forall req2,
     (run (google_callback req2) (run (google_callback req) w).2).1
       = Respond csrf_rejection).
Proof.
  split; [apply google_callback_consumes |]. split.
  - intros Hbad. split; [| done]. apply google_callback_rejects.
    unfold state_rejected.
    destruct (session w !! "oauth_state"%string) as [v |] eqn:Hs; [| done].
    destruct (args req !! "state"%string) as [s |] eqn:Ha;
      [| by rewrite orb_true_r].
    destruct Hbad as [? | [? | Hne]]; [done.. |].
    cbn [state_differs]. destruct (json_eq_str v s) eqn:Heq; [| by rewrite orb_true_r].
    apply json_eq_str_true in Heq. by subst.
  - intros req2. rewrite google_callback_rejects; [done |].
    unfold state_rejected. by rewrite google_callback_consumes.
Qed.

End Callback.

Section SampleCallback.

#[local] Existing Instance Sample.collaborators.

(** A callback with another state than the stored one. *)
Lemma google_callback_state_witness :
  run (google_callback (Sample.callback_request (py "n-2"))) Sample.pending_world
    = (Respond csrf_rejection, consumed Sample.pending_world) /\
  db (consumed Sample.pending_world) = db Sample.pending_world.
Proof.
  apply (proj1 (proj2 (google_callback_state (Sample.callback_request (py "n-2")) Sample.pending_world))).
  right. right. by vm_compute.
Defined.

(** The stored state passes once, and the same callback again is rejected. *)
Example google_callback_single_use :
  let req := Sample.callback_request (py "n-1") in
  let first := run (google_callback req) Sample.pending_world in
  status <$> (match first.1 with Respond r => Some r | Uncaught _ => None end) = Some 200 /\
  session first.2 !! "user_email"%string = Some (JStr (py "jane@example.com")) /\
  (run (google_callback req) first.2).1 = Respond csrf_rejection.
Proof. by vm_compute. Qed.

(** On a first federated login the new row has neither password nor phone
    number, which the non-null columns refuse: the commit raises and the
    catch-all answers 500. *)
Example google_callback_new_account :
  let w := {| db := []; session := {[ "oauth_state"%string := JStr (py "n-1") ]}; now := 2000 |} in
  run (google_callback (Sample.callback_request (py "n-1"))) w
    = (Respond (Response 500 (JObj [("error"%string, JStr (py "error"))])), consumed w).
Proof. by vm_compute. Qed.

End SampleCallback.

(** ** Password reset *)

Section Reset.

Context `{C : Collaborators}.

(** [reset_password], statement by statement. *)
Lemma reset_password_run token req w :
  run (reset_password token req) w =
  match timed_unsign (py "reset-password-salt") token with
  | Raise _ => (Respond invalid_or_expired, w)
  | Ok signed =>
      if (now w - signed.2 >? 3600) || (now w - signed.2 <? 0)
      then (Respond invalid_or_expired, w)
      else
        let new_password := get_json req !! "password"%string in
        if negb (truthy new_password) || (length (default [] new_password) <? 6)%nat
        then (Respond (Response 400 (msg "Password must be at least 6 characters long")), w)
        else
          match first_by_email (db w) (Some signed.1) with
          | None => (Respond (Response 404 (msg "User not found")), w)
          | Some user =>
              match generate_password_hash_call (default [] new_password) with
              | Raise e => (Uncaught e, w)
              | Ok hashed =>
                  let rows := rows_with_password (db w) user hashed in
                  if backend_commits (db w) rows
                  then (Respond (Response 200 (msg "Password reset successful")),
                        set_db rows w)
                  else (Uncaught OperationalError, w)
              end
          end
  end.
Proof.
  unfold reset_password, loads, db_commit_password, rows_with_password. cbv zeta. unfold_m.
  branch (timed_unsign (py "reset-password-salt") token) as [[payload ts] | e].
  cbn [fst snd].
  destruct (now w - ts >? 3600); cbn [orb]; [reflexivity |].
  destruct (now w - ts <? 0); [reflexivity |].
  branch (negb (truthy (get_json req !! "password"%string))
          || (length (default [] (get_json req !! "password"%string)) <? 6)%nat).
  branch (first_by_email (db w) (Some payload)) as [user |].
  destruct (generate_password_hash_call _) as [hashed | e]; [| reflexivity].
  by destruct (backend_commits _ _).
Qed.


End Reset.

Section SampleReset.

#[local] Existing Instance Sample.collaborators.



End SampleReset.

(** * Further properties of the validators *)

(** X1. [validate_password] accepts exactly the strings made of a body of at
    least eight characters of [[A-Za-z\d]], among them a letter and a digit,
    followed by nothing or by a single newline. *)
Theorem validate_password_exact (nd : N -> bool) (s : pystr) :
  validate_password nd s = true <->
  exists body,
    (s = body \/ s = body ++ [Re.newline]) /\
    (8 <= length body)%nat /\
    Forall (fun c => Re.alnum nd c = true) body /\
    Exists (fun c => Re.letter c = true) body /\
    Exists (fun c => Re.digit nd c = true) body.
Proof. apply validate_password_spec. Qed.

Lemma filter_digits_id nd (s : pystr) :
  Forall (fun c => Re.digit nd c = true) s -> List.filter (Re.digit nd) s = s.
Proof.
  induction 1 as [|c s Hc _ IH]; [done |]. cbn. by rewrite Hc, IH.
Qed.

Lemma normalize_phone_fixed nd phone :
  normalize_phone nd (Some (normalize_phone nd phone)) = normalize_phone nd phone.
Proof.
  pose proof (normalize_phone_digits nd phone) as Hdig.
  rewrite normalize_phone_spec. cbv zeta. rewrite (filter_digits_id _ _ Hdig).
  destruct phone as [s |]; [| done].
  rewrite normalize_phone_spec. cbv zeta.
  set (d := List.filter (Re.digit nd) s).
  destruct (startswith d (py "254") && (length d =? 12)%nat) eqn:Hc.
  - reflexivity.
  - by rewrite Hc.
Qed.

(** X2. The result of [normalize_phone] holds digits only, is never longer
    than its argument, and is a fixed point: normalising it again changes
    nothing. *)
Theorem normalize_phone_idempotent (nd : N -> bool) (phone : option pystr) :
  let n := normalize_phone nd phone in
  Forall (fun c => Re.digit nd c = true) n /\
  (length n <= length (default [] phone))%nat /\
  normalize_phone nd (Some n) = n.
Proof.
  intros n. split; [apply normalize_phone_digits |]. split; [| apply normalize_phone_fixed].
  subst n. destruct phone as [s |]; [| cbn; lia].
  rewrite normalize_phone_spec. cbv zeta. cbn [default].
  pose proof (filter_length_le (Re.digit nd) s) as Hle.
  destruct (_ && _) eqn:Hc; [| exact Hle].
  apply andb_true_iff in Hc as [_ Hlen]. apply Nat.eqb_eq in Hlen.
  rewrite length_app, length_drop, Hlen in *. cbn. lia.
Qed.

Section CarrierPhoneMore.

Context `{C : Collaborators}.

Lemma startswith_take (s p : pystr) n :
  (length p <= n)%nat -> startswith (take n s) p = startswith s p.
Proof.
  revert s n. induction p as [|c p IH]; intros s n Hn.
  - by destruct (take n s), s.
  - destruct n as [|n]; [cbn in Hn; lia |]. destruct s as [|d s]; [done |].
    cbn. rewrite IH by (cbn in Hn; lia). done.
Qed.

Lemma safaricom_prefixes_local :
  Forall (fun p => startswith p (py "07") || startswith p (py "01") = true)
    SAFARICOM_PREFIXES.
Proof. by vm_compute; repeat constructor. Qed.

(** X3. Whether [is_valid_safaricom_phone] accepts depends on the normalised
    number only: two arguments with the same normalisation get the same
    answer, and so do an argument and its normalisation. An accepted number
    normalises to at least ten digits that begin with 07 or 01, with the
    first four in [SAFARICOM_PREFIXES]. *)
Theorem is_valid_safaricom_phone_normal_form :
  (forall p q,
     normalize_phone unicode_Nd p = normalize_phone unicode_Nd q ->
     is_valid_safaricom_phone p = is_valid_safaricom_phone q) /\
  (forall p,
     is_valid_safaricom_phone (Some (normalize_phone unicode_Nd p))
       = is_valid_safaricom_phone p) /\
  (forall p,
     is_valid_safaricom_phone p = true ->
     let n := normalize_phone unicode_Nd p in
     (10 <= length n)%nat /\
     Forall (fun c => Re.digit unicode_Nd c = true) n /\
     take 4 n ∈ SAFARICOM_PREFIXES /\
     (startswith n (py "07") = true \/ startswith n (py "01") = true)).
Proof.
  assert (Hsame : forall p q,
            normalize_phone unicode_Nd p = normalize_phone unicode_Nd q ->
            is_valid_safaricom_phone p = is_valid_safaricom_phone q).
  { intros p q Heq. rewrite !is_valid_safaricom_phone_unfold. cbv zeta. by rewrite Heq. }
  split; [exact Hsame |]. split.
  - intros p. apply Hsame, normalize_phone_fixed.
  - intros p. rewrite is_valid_safaricom_phone_unfold. cbv zeta.
    rewrite !andb_true_iff. intros [[Hlen _] Hin].
    apply Nat.leb_le in Hlen. apply bool_decide_eq_true in Hin.
    split; [done |]. split; [apply normalize_phone_digits |]. split; [done |].
    pose proof safaricom_prefixes_local as Hloc. rewrite Forall_forall in Hloc.
    apply Hloc in Hin. apply orb_true_iff in Hin.
    by rewrite !startswith_take in Hin by (cbn; lia).
Qed.

End CarrierPhoneMore.

Section SampleCarrierPhoneMore.

#[local] Existing Instance Sample.collaborators.

(** A number written with spaces and the country code. *)
Lemma is_valid_safaricom_phone_normal_form_witness :
  is_valid_safaricom_phone (Some (py "+254 712 345 678")) = true /\
  normalize_phone unicode_Nd (Some (py "+254 712 345 678")) = py "0712345678" /\
  is_valid_safaricom_phone (Some (py "+254 712 345 678"))
    = is_valid_safaricom_phone (Some (py "0712-345-678")).
Proof.
  destruct is_valid_safaricom_phone_normal_form as (Hsame & _ & Hshape).
  assert (Hok : is_valid_safaricom_phone (Some (py "+254 712 345 678")) = true)
    by (by vm_compute).
  destruct (Hshape _ Hok) as (_ & _ & _ & _).
  split; [exact Hok |]. split; [reflexivity |].
  apply Hsame. reflexivity.
Defined.

End SampleCarrierPhoneMore.

(** * Further properties of the view functions *)

Section TableInvariant.

Context `{C : Collaborators}.

Lemma next_id_fresh rows u : u ∈ rows -> id u < next_id rows.
Proof.
  unfold next_id. induction rows as [|v rows IH]; intros Hin.
  - by apply elem_of_nil in Hin.
  - cbn. apply elem_of_cons in Hin as [-> | Hin]; [lia |].
    specialize (IH Hin). lia.
Qed.

Lemma first_by_email_none rows e :
  first_by_email rows (Some e) = None -> e ∉ List.map email rows.
Proof.
  intros Hnone Hin. apply list_elem_of_In, in_map_iff in Hin as (u & Hu & Hin).
  assert (Hf : found (first_by_email rows (Some e)) = true).
  { apply found_first_by_email. exists u. split; [by apply list_elem_of_In | done]. }
  by rewrite Hnone in Hf.
Qed.

Lemma first_by_phone_none rows p :
  first_by_phone rows (Some p) = None -> p ∉ List.map phone_number rows.
Proof.
  intros Hnone Hin. apply list_elem_of_In, in_map_iff in Hin as (u & Hu & Hin).
  assert (Hf : found (first_by_phone rows (Some p)) = true).
  { apply found_first_by_phone. exists u. split; [by apply list_elem_of_In | done]. }
  by rewrite Hnone in Hf.
Qed.

Lemma NoDup_snoc {A} (l : list A) (x : A) : NoDup l -> x ∉ l -> NoDup (l ++ [x]).
Proof.
  intros Hl Hx. apply NoDup_app. split; [done |]. split; [| apply NoDup_singleton].
  intros y Hy Hy'. apply list_elem_of_singleton in Hy'. by subst.
Qed.

Lemma insert_row_table_ok rows a rows' u :
  table_ok rows -> insert_row rows a = Ok (rows', u) -> table_ok rows'.
Proof.
  intros (Hid & Hemail & Hphone) Hins.
  apply insert_row_ok in Hins as (-> & _ & _ & _ & _ & _ & Hnew & Hfe & Hfp).
  unfold table_ok. rewrite !map_app. cbn [List.map].
  split; [| split]; apply NoDup_snoc; try done.
  - intros Hin. apply list_elem_of_In, in_map_iff in Hin as (v & Hv & Hin).
    apply list_elem_of_In, next_id_fresh in Hin. lia.
  - by apply first_by_email_none.
  - by apply first_by_phone_none.
Qed.

Lemma rows_with_password_keys rows user h :
  List.map id (rows_with_password rows user h) = List.map id rows /\
  List.map email (rows_with_password rows user h) = List.map email rows /\
  List.map phone_number (rows_with_password rows user h) = List.map phone_number rows /\
  List.map role (rows_with_password rows user h) = List.map role rows /\
  List.map userfullnames (rows_with_password rows user h) = List.map userfullnames rows.
Proof.
  unfold rows_with_password. rewrite !List.map_map.
  repeat split; apply map_ext; intros u; by destruct (id u =? id user).
Qed.

Lemma rows_with_password_table_ok rows user h :
  table_ok rows -> table_ok (rows_with_password rows user h).
Proof.
  unfold table_ok. destruct (rows_with_password_keys rows user h) as (-> & -> & -> & _).
  done.
Qed.

Lemma table_step_ok rows rows' : table_ok rows -> table_step rows rows' -> table_ok rows'.
Proof.
  intros Hok [| a u rows2 Hins | user h].
  - done.
  - by eapply insert_row_table_ok.
  - by apply rows_with_password_table_ok.
Qed.

Lemma register_step req w : table_step (db w) (db (run (register req) w).2).
Proof.
  rewrite register_run. cbv zeta.
  destruct (is_valid_email _) as [[|] | e]; try constructor.
  destruct (negb _ || negb _); try constructor.
  destruct (validate_password_arg _) as [[|] | e]; try constructor.
  destruct (found _ || found _); try constructor.
  destruct (generate_password_hash_arg _) as [h | e]; try constructor.
  destruct (insert_row _ _) as [[rows u] | e] eqn:Hins; try constructor.
  cbn. by econstructor.
Qed.

Lemma register_admin_body_step req w :
  table_step (db w) (db (run (register_admin_body req) w).2).
Proof.
  rewrite register_admin_body_run. cbv zeta.
  destruct (is_valid_email _) as [[|] | e]; try constructor.
  destruct (negb _); try constructor.
  destruct (validate_password_arg _) as [[|] | e]; try constructor.
  destruct (found _ || found _); try constructor.
  destruct (generate_password_hash_arg _) as [h | e]; try constructor.
  destruct (insert_row _ _) as [[rows u] | e] eqn:Hins; try constructor.
  cbn. by econstructor.
Qed.

Lemma register_user_step role req w :
  table_step (db w) (db (run (register_user role req) w).2).
Proof.
  rewrite register_user_run. cbv zeta.
  destruct (negb _ || negb _ || negb _ || negb _); try constructor.
  destruct (is_valid_email _) as [[|] | e]; try constructor.
  destruct (negb _); try constructor.
  destruct (validate_password_arg _) as [[|] | e]; try constructor.
  destruct (found _ || found _); try constructor.
  destruct (generate_password_hash_arg _) as [h | e]; try constructor.
  destruct (insert_row _ _) as [[rows u] | e] eqn:Hins; try constructor.
  cbn. by econstructor.
Qed.

Lemma reset_password_step token req w :
  table_step (db w) (db (run (reset_password token req) w).2).
Proof.
  rewrite reset_password_run.
  destruct (timed_unsign _ _) as [[payload ts] | e]; try constructor.
  destruct (_ || _); try constructor. cbv zeta.
  destruct (_ || _); try constructor.
  destruct (first_by_email _ _) as [user |]; try constructor.
  destruct (generate_password_hash_call _) as [hashed | e]; try constructor.
  destruct (backend_commits _ _); constructor.
Qed.

(** What the two decorators can do: raise or refuse, leaving the state as
    it is, or run the function they wrap. *)
Lemma role_required_cases required fn req w :
  (exists claims, verify_jwt_in_request req = Ok claims /\
                  claims !! "role"%string = Some (JStr required) /\
                  role_required required fn req w = fn req w) \/
  ((exists e, role_required required fn req w = (Throw e, w)) \/
   role_required required fn req w = (Return forbidden, w)).
Proof.
  unfold role_required.
  destruct (verify_jwt_in_request req) as [claims | e] eqn:Hjwt; unfold_m.
  - destruct (role_mismatch claims required) eqn:Hm.
    + right. by right.
    + left. exists claims. by apply role_mismatch_false in Hm.
  - right. left. by exists e.
Qed.

Lemma jwt_required_cases fn req w :
  (exists claims, verify_jwt_in_request req = Ok claims /\ jwt_required fn req w = fn req w) \/
  (exists e, jwt_required fn req w = (Throw e, w)).
Proof.
  unfold jwt_required.
  destruct (verify_jwt_in_request req) as [claims | e] eqn:Hjwt; unfold_m.
  - left. by exists claims.
  - right. by exists e.
Qed.

Lemma run_snd (h : M response) w : (run h w).2 = (h w).2.
Proof. unfold run. by destruct (h w) as [[r | r | e] w']. Qed.

Lemma gated_step required fn req w :
  (forall w, table_step (db w) (db (run (fn req) w).2)) ->
  table_step (db w) (db (run (role_required required fn req) w).2).
Proof.
  intros Hfn. rewrite run_snd.
  destruct (role_required_cases required fn req w)
    as [(claims & _ & _ & ->) | [[e ->] | ->]]; try constructor.
  rewrite <- run_snd. apply Hfn.
Qed.

Lemma jwt_gated_step required fn req w :
  (forall w, table_step (db w) (db (run (fn req) w).2)) ->
  table_step (db w) (db (run (jwt_required (role_required required fn) req) w).2).
Proof.
  intros Hfn. rewrite run_snd.
  destruct (jwt_required_cases (role_required required fn) req w)
    as [(claims & _ & ->) | [e ->]]; try constructor.
  rewrite <- run_snd. by apply gated_step.
Qed.

End TableInvariant.

Section CallbackOutcomes.

Context `{C : Collaborators}.

(** The session after a federated login of [u]. *)
Lemma google_callback_run req w :
  run (google_callback req) w =
  if state_rejected req w then (Respond csrf_rejection, consumed w)
  else
    let internal e := (Respond (Response 500 (JObj [("error"%string, JStr (exn_str e))])),
                       consumed w) in
    match authorize_access_token req with
    | Raise e => internal e
    | Ok _ =>
        match get_userinfo req with
        | Raise e => internal e
        | Ok user_info =>
            if userinfo_unusable user_info
            then (Respond (Response 400 (error "Failed to retrieve user information")),
                  consumed w)
            else
              let info := default ∅ user_info in
              match first_by_email (db w) (Some (default [] (info !! "email"%string))) with
              | None => internal IntegrityError
              | Some u =>
                  (Respond (Response 200
                     (JObj [("msg"%string, JStr (py "Login successful"));
                            ("access_token"%string, JStr (generate_token u))])),
                   set_session
                     (<["user_role"%string := JStr (role_value (role u))]>
                        (<["user_email"%string := JStr (email u)]>
                           (<["user_id"%string := JNum (id u)]>
                              (delete "oauth_state"%string (session w))))) w)
              end
        end
    end.
Proof.
  destruct (state_rejected req w) eqn:Hrej.
  { by apply google_callback_rejects. }
  unfold state_rejected in Hrej.
  unfold google_callback, db_session_add_commit. cbv zeta. unfold_m. rewrite Hrej.
  cbn [set_session session db now]. unfold consumed, set_session.
  branch (authorize_access_token req) as [token | e].
  branch (get_userinfo req) as [user_info | e].
  branch (userinfo_unusable user_info). cbn [db session now].
  destruct (first_by_email (db w) (Some (default [] (default ∅ user_info !! "email"%string))))
    as [u |]; [reflexivity |].
  unfold insert_row. change (role_of_name (py "PATIENT")) with (Some PATIENT).
  reflexivity.
Qed.

Lemma userinfo_usable (info : gmap string pystr) e :
  info !! "email"%string = Some e -> userinfo_unusable (Some info) = false.
Proof.
  intros He. unfold userinfo_unusable. rewrite He. cbn [found negb].
  rewrite orb_false_r. apply bool_decide_eq_false. intros ->.
  by rewrite lookup_empty in He.
Qed.

(** X12. The OAuth callback never lets an exception escape: it always
    answers, with status 200, 400 or 500. It never changes the users table:
    the account it would create on a first federated login has no password
    and no phone number, which the non-null columns refuse, so for an email
    that has no account the callback, once past the state check and the
    provider, answers 500 and no account is created. *)
Theorem google_callback_never_provisions (req : Request) (w : World) :
  (exists r, (run (google_callback req) w).1 = Respond r /\
             (status r = 200 \/ status r = 400 \/ status r = 500)) /\
  db (run (google_callback req) w).2 = db w /\
  (forall info e,
     state_rejected req w = false ->
     (exists token, authorize_access_token req = Ok token) ->
     get_userinfo req = Ok (Some info) ->
     info !! "email"%string = Some e ->
     first_by_email (db w) (Some e) = None ->
     run (google_callback req) w =
       (Respond (Response 500 (JObj [("error"%string, JStr (exn_str IntegrityError))])),
        consumed w)).
Proof.
  rewrite google_callback_run. split; [| split].
  - destruct (state_rejected req w); [eexists; split; [done | cbn; auto] |]. cbv zeta.
    destruct (authorize_access_token req); [| eexists; split; [done | cbn; auto]].
    destruct (get_userinfo req) as [ui |]; [| eexists; split; [done | cbn; auto]].
    destruct (userinfo_unusable ui); [eexists; split; [done | cbn; auto] |].
    destruct (first_by_email _ _); eexists; (split; [done | cbn; auto]).
  - destruct (state_rejected req w); [done |]. cbv zeta.
    destruct (authorize_access_token req); [| done].
    destruct (get_userinfo req) as [ui |]; [| done].
    destruct (userinfo_unusable ui); [done |].
    by destruct (first_by_email _ _).
  - intros info e -> [token ->] -> He Hnone. cbv zeta.
    rewrite (userinfo_usable info e He).
    cbn [from_option Datatypes.id]. rewrite He. cbn [from_option Datatypes.id]. by rewrite Hnone.
Qed.

(** X13. A callback whose state equals the stored one, for which the
    provider yields a token and a profile with the email of an existing
    account, answers 200 with the access token of that account, leaves the
    table as it is and records the account's id, email and role in the
    session, the anti-CSRF state being gone. *)
Theorem google_callback_existing_account (req : Request) (w : World)
        (state : pystr) (info : gmap string pystr) (u : User) :
  state <> [] ->
  session w !! "oauth_state"%string = Some (JStr state) ->
  args req !! "state"%string = Some state ->
  (exists token, authorize_access_token req = Ok token) ->
  get_userinfo req = Ok (Some info) ->
  info !! "email"%string = Some (email u) ->
  first_by_email (db w) (Some (email u)) = Some u ->
  let w' := (run (google_callback req) w).2 in
  (run (google_callback req) w).1 =
    Respond (Response 200
      (JObj [("msg"%string, JStr (py "Login successful"));
             ("access_token"%string, JStr (generate_token u))])) /\
  db w' = db w /\
  session w' !! "user_id"%string = Some (JNum (id u)) /\
  session w' !! "user_email"%string = Some (JStr (email u)) /\
  session w' !! "user_role"%string = Some (JStr (role_value (role u))) /\
  session w' !! "oauth_state"%string = None.
Proof.
  intros Hne Hstored Hrecv [token Htok] Hinfo He Hu w'. subst w'.
  rewrite google_callback_run.
  assert (state_rejected req w = false) as ->.
  { unfold state_rejected. rewrite Hstored, Hrecv. cbn.
    destruct state; [done |]. cbn. unfold str_eqb. by rewrite bool_decide_eq_true_2. }
  cbv zeta. rewrite Htok, Hinfo.
  rewrite (userinfo_usable info (email u) He).
  cbn [from_option Datatypes.id]. rewrite He. cbn [from_option Datatypes.id]. rewrite Hu. cbn.
  repeat split.
  - do 2 rewrite lookup_insert_ne by done. apply lookup_insert_eq.
  - rewrite lookup_insert_ne by done. apply lookup_insert_eq.
  - apply lookup_insert_eq.
  - do 3 rewrite lookup_insert_ne by done. apply lookup_delete_eq.
Qed.

End CallbackOutcomes.

Section SampleCallbackOutcomes.

#[local] Existing Instance Sample.collaborators.

(** A first federated login on an empty table. *)
Lemma google_callback_never_provisions_witness :
  let w := {| db := []; session := {[ "oauth_state"%string := JStr (py "n-1") ]};
              now := 2000 |} in
  run (google_callback (Sample.callback_request (py "n-1"))) w =
    (Respond (Response 500 (JObj [("error"%string, JStr (exn_str IntegrityError))])),
     consumed w).
Proof.
  intros w.
  apply (proj2 (proj2 (google_callback_never_provisions
                         (Sample.callback_request (py "n-1")) w))
           {[ "email"%string := py "jane@example.com"; "name"%string := py "Jane Doe" ]}
           (py "jane@example.com")).
  - by vm_compute.
  - by exists (py "provider-token").
  - reflexivity.
  - reflexivity.
  - reflexivity.
Defined.

(** Jane comes back from the provider. *)
Lemma google_callback_existing_account_witness :
  (run (google_callback (Sample.callback_request (py "n-1"))) Sample.pending_world).1 =
    Respond (Response 200
      (JObj [("msg"%string, JStr (py "Login successful"));
             ("access_token"%string, JStr (generate_token Sample.jane))])) /\
  db (run (google_callback (Sample.callback_request (py "n-1"))) Sample.pending_world).2
    = [Sample.jane].
Proof.
  assert (Hne : py "n-1" <> []) by (by vm_compute).
  assert (Htok : exists token,
            authorize_access_token (Sample.callback_request (py "n-1")) = Ok token)
    by (by exists (py "provider-token")).
  destruct (google_callback_existing_account (Sample.callback_request (py "n-1"))
              Sample.pending_world (py "n-1")
              {[ "email"%string := py "jane@example.com"; "name"%string := py "Jane Doe" ]}
              Sample.jane Hne eq_refl eq_refl Htok eq_refl eq_refl eq_refl)
    as (H1 & H2 & _).
  split; [exact H1 | exact H2].
Defined.

End SampleCallbackOutcomes.

Section Invariant.

Context `{C : Collaborators}.

Lemma google_callback_db req w : db (run (google_callback req) w).2 = db w.
Proof.
  rewrite google_callback_run.
  destruct (state_rejected req w); [done |]. cbv zeta.
  destruct (authorize_access_token req); [| done].
  destruct (get_userinfo req) as [ui |]; [| done].
  destruct (userinfo_unusable ui); [done |].
  by destruct (first_by_email _ _).
Qed.

Lemma login_world req w : (run (login req) w).2 = w.
Proof.
  rewrite login_run. cbv zeta.
  destruct (_ || _); [done |].
  destruct (first_by_email _ _) as [u |]; [| done].
  by destruct (check_password_hash_call _ _) as [[|] | e].
Qed.

(** X4. Every view function keeps the invariant of the users table: if the
    primary keys, the emails and the phone numbers of the rows are pairwise
    distinct before a request, they are after it, whatever the request and
    whatever the collaborators do. *)
Theorem table_ok_preserved (req : Request) (w : World) :
  table_ok (db w) ->
  table_ok (db (run (register req) w).2) /\
  table_ok (db (run (register_admin req) w).2) /\
  table_ok (db (run (register_doctor req) w).2) /\
  table_ok (db (run (register_nurse req) w).2) /\
  table_ok (db (run (register_receptionist req) w).2) /\
  table_ok (db (run (login req) w).2) /\
  table_ok (db (run (logout req) w).2) /\
  table_ok (db (run (google_callback req) w).2) /\
  (forall token, table_ok (db (run (reset_password token req) w).2)).
Proof.
  intros Hok.
  split. { eapply table_step_ok; [done | apply register_step]. }
  split. { eapply table_step_ok; [done |]. apply gated_step. intros w0.
           apply register_admin_body_step. }
  split. { eapply table_step_ok; [done |]. apply jwt_gated_step. intros w0.
           apply register_user_step. }
  split. { eapply table_step_ok; [done |]. apply jwt_gated_step. intros w0.
           apply register_user_step. }
  split. { eapply table_step_ok; [done |]. apply jwt_gated_step. intros w0.
           apply register_user_step. }
  split. { by rewrite login_world. }
  split. { done. }
  split. { by rewrite google_callback_db. }
  intros token. eapply table_step_ok; [done | apply reset_password_step].
Qed.

End Invariant.

Section SampleInvariant.

#[local] Existing Instance Sample.collaborators.

(** A sign-up on the table that holds Jane. *)
Lemma table_ok_preserved_witness :
  let req := registration_request (py "john@example.com") (py "0722000111")
               (py "abc12345") (py "John Doe") in
  length (db (run (register req) Sample.jane_world).2) = 2%nat /\
  table_ok (db (run (register req) Sample.jane_world).2).
Proof.
  intros req.
  assert (Hok : table_ok (db Sample.jane_world)).
  { repeat split; cbn; apply NoDup_singleton. }
  split; [by vm_compute |].
  exact (proj1 (table_ok_preserved req Sample.jane_world Hok)).
Defined.

End SampleInvariant.

Section RegistrationEffects.

Context `{C : Collaborators}.

(** The row a registration adds for a body with the four fields. *)
Lemma insert_row_new_user req h role_name rows u :
  insert_row rows (new_user_args req h role_name) = Ok (rows ++ [u], u) ->
  get_json req !! "email"%string = Some (email u) /\
  get_json req !! "phone"%string = Some (phone_number u) /\
  get_json req !! "userfullnames"%string = Some (userfullnames u) /\
  password u = h /\
  role_of_name role_name = Some (role u) /\
  id u = next_id rows.
Proof.
  intros Hins. apply insert_row_ok in Hins as (_ & He & Hp & Hpw & Hn & Hr & Hid & _).
  cbn in *. injection Hpw as <-. by repeat split.
Qed.

Lemma insert_row_appends rows a rows' u :
  insert_row rows a = Ok (rows', u) -> rows' = rows ++ [u].
Proof. intros H. by apply insert_row_ok in H as (-> & _). Qed.

(** X5. [register] either adds exactly one row or changes nothing. When it
    answers 201 the new row has the next primary key, the email, phone
    number and full name of the body as they came, the hash of the submitted
    password, and the role PATIENT whatever else the body holds; the session
    is untouched. In every other case the state is unchanged and a response,
    if there is one, has status 400. *)
Theorem register_effect (req : Request) (w : World) :
  (exists u pw,
     run (register req) w =
       (Respond (Response 201 (msg "User registered successfully")),
        set_db (db w ++ [u]) w) /\
     get_json req !! "email"%string = Some (email u) /\
     get_json req !! "phone"%string = Some (phone_number u) /\
     get_json req !! "userfullnames"%string = Some (userfullnames u) /\
     get_json req !! "password"%string = Some pw /\
     password u = generate_password_hash pw /\
     role u = PATIENT /\
     id u = next_id (db w) /\
     validate_password unicode_Nd pw = true /\
     is_valid_safaricom_phone (Some (phone_number u)) = true) \/
  ((run (register req) w).2 = w /\
   forall r, (run (register req) w).1 = Respond r -> status r = 400).
Proof.
  rewrite register_run. cbv zeta.
  destruct (is_valid_email _) as [[|] | e]; [| right; split; [done | by intros r [= <-]]
                                              | right; split; [done | by intros r [=]]].
  destruct (truthy _) eqn:Htruthy; cbn [negb orb];
    [| right; split; [done | by intros r [= <-]]].
  destruct (is_valid_safaricom_phone _) eqn:Hphone; cbn [negb];
    [| right; split; [done | by intros r [= <-]]].
  destruct (get_json req !! "password"%string) as [pw |] eqn:Hpw;
    [| right; split; [done | by intros r [=]]].
  cbn [validate_password_arg generate_password_hash_arg].
  destruct (validate_password unicode_Nd pw) eqn:Hvalid;
    [| right; split; [done | by intros r [= <-]]].
  unfold generate_password_hash_call. rewrite (validate_password_encodable _ Hvalid).
  destruct (found _ || found _); [right; split; [done | by intros r [= <-]] |].
  destruct (insert_row _ _) as [[rows u] | e] eqn:Hins;
    [| right; split; [done | by intros r [=]]].
  left. pose proof (insert_row_appends _ _ _ _ Hins) as ->.
  apply insert_row_new_user in Hins as (He & Hp & Hn & Hh & Hr & Hid).
  exists u, pw. rewrite Hp in Hphone.
  change (role_of_name (py "PATIENT")) with (Some PATIENT) in Hr. injection Hr as <-.
  by repeat split.
Qed.

(** What [register_user] does at a role string that names [r]. *)
Lemma register_user_effect role_name r req w :
  role_of_name role_name = Some r ->
  (exists u pw,
     run (register_user role_name req) w =
       (Respond (Response 201
          (JObj [("msg"%string, JStr (capitalize role_name ++ py " registered successfully"))])),
        set_db (db w ++ [u]) w) /\
     get_json req !! "email"%string = Some (email u) /\
     get_json req !! "phone"%string = Some (phone_number u) /\
     get_json req !! "userfullnames"%string = Some (userfullnames u) /\
     get_json req !! "password"%string = Some pw /\
     password u = generate_password_hash pw /\
     role u = r /\
     id u = next_id (db w)) \/
  ((run (register_user role_name req) w).2 = w /\
   forall r', (run (register_user role_name req) w).1 = Respond r' ->
              status r' = 400 \/ status r' = 500).
Proof.
  intros Hrole. rewrite register_user_run. cbv zeta.
  destruct (_ || _ || _ || _); [right; split; [done | intros r' [= <-]; by left] |].
  destruct (is_valid_email _) as [[|] | e];
    [| right; split; [done | intros r' [= <-]; by left]
     | right; split; [done | by intros r' [=]]].
  destruct (negb _); [right; split; [done | intros r' [= <-]; by left] |].
  destruct (get_json req !! "password"%string) as [pw |] eqn:Hpw;
    [| right; split; [done | by intros r' [=]]].
  cbn [validate_password_arg generate_password_hash_arg].
  destruct (validate_password unicode_Nd pw) eqn:Hvalid;
    [| right; split; [done | intros r' [= <-]; by left]].
  unfold generate_password_hash_call. rewrite (validate_password_encodable _ Hvalid).
  destruct (found _ || found _); [right; split; [done | intros r' [= <-]; by left] |].
  destruct (insert_row _ _) as [[rows u] | e] eqn:Hins;
    [| right; split; [done | intros r' [= <-]; by right]].
  left. pose proof (insert_row_appends _ _ _ _ Hins) as ->.
  apply insert_row_new_user in Hins as (He & Hp & Hn & Hh & Hr & Hid).
  exists u, pw. rewrite Hrole in Hr. injection Hr as <-. by repeat split.
Qed.

(** X7. On a body without a password whose email and phone number are
    valid, [register] and the body of [register_admin] do not answer: the
    password check calls [re.match] on [None], the [TypeError] is caught
    nowhere, and the state is unchanged. *)
Theorem register_missing_password (req : Request) (w : World) :
  get_json req !! "password"%string = None ->
  is_valid_email (get_json req !! "email"%string) = Ok true ->
  truthy (get_json req !! "phone"%string) = true ->
  is_valid_safaricom_phone (get_json req !! "phone"%string) = true ->
  run (register req) w = (Uncaught TypeError, w) /\
  run (register_admin_body req) w = (Uncaught TypeError, w).
Proof.
  intros Hpw Hemail Htruthy Hphone.
  rewrite register_run, register_admin_body_run. cbv zeta.
  by rewrite Hpw, Hemail, Htruthy, Hphone.
Qed.

End RegistrationEffects.

Section Gate.

Context `{C : Collaborators}.

Lemma register_admin_body_effect req w :
  (exists u,
     (run (register_admin_body req) w).2 = set_db (db w ++ [u]) w /\
     role u = ADMIN /\
     get_json req !! "email"%string = Some (email u)) \/
  (run (register_admin_body req) w).2 = w.
Proof.
  rewrite register_admin_body_run. cbv zeta.
  destruct (is_valid_email _) as [[|] | e]; [| by right..].
  destruct (negb _); [by right |].
  destruct (validate_password_arg _) as [[|] | e]; [| by right..].
  destruct (found _ || found _); [by right |].
  destruct (generate_password_hash_arg _) as [h | e]; [| by right].
  destruct (insert_row _ _) as [[rows u] | e] eqn:Hins; [| by right].
  left. pose proof (insert_row_appends _ _ _ _ Hins) as ->.
  apply insert_row_new_user in Hins as (He & _ & _ & _ & Hr & _).
  change (role_of_name (py "ADMIN")) with (Some ADMIN) in Hr. injection Hr as Hr.
  exists u. by repeat split.
Qed.

Lemma gated_creates required fn r req w :
  required = py "ADMIN" ->
  ((exists u, (run (fn req) w).2 = set_db (db w ++ [u]) w /\ role u = r /\
              get_json req !! "email"%string = Some (email u)) \/
   (run (fn req) w).2 = w) ->
  creates_only_for_admin (role_required required fn) r req w.
Proof.
  intros -> Hfn. unfold creates_only_for_admin. rewrite run_snd.
  destruct (role_required_cases (py "ADMIN") fn req w)
    as [(claims & Hjwt & Hrole & ->) | [[e ->] | ->]]; [| by left..].
  rewrite <- run_snd. destruct Hfn as [(u & Hw & Hr & He) | Hw]; [| by left].
  right. by exists claims, u.
Qed.

(** The second decorator of the doctor, nurse and receptionist views adds
    nothing to the role gate. *)
Lemma jwt_required_role_required required fn req w :
  jwt_required (role_required required fn) req w = role_required required fn req w.
Proof.
  unfold jwt_required, role_required.
  destruct (verify_jwt_in_request req) as [claims | e]; unfold_m; reflexivity.
Qed.

Lemma register_user_creates role_name r req w :
  role_of_name role_name = Some r ->
  (exists u, (run (register_user role_name req) w).2 = set_db (db w ++ [u]) w /\
             role u = r /\ get_json req !! "email"%string = Some (email u)) \/
  (run (register_user role_name req) w).2 = w.
Proof.
  intros Hrole.
  destruct (register_user_effect role_name r req w Hrole)
    as [(u & pw & -> & He & _ & _ & _ & _ & Hr & _) | [Hw _]]; [| by right].
  left. by exists u.
Qed.

(** X6. The four admin views change the state only for a caller whose token
    verifies with the role claim ADMIN, and then only by appending one
    account, of role ADMIN, DOCTOR, NURSE or RECEPTIONIST according to the
    view, for the email of the body. A missing or invalid token, or another
    role, leaves table and session as they were. The doctor, nurse and
    receptionist views behave as the role gate alone around
    [register_user]: their [@jwt_required()] adds nothing. *)
Theorem admin_views_admin_only (req : Request) (w : World) :
  creates_only_for_admin register_admin ADMIN req w /\
  creates_only_for_admin register_doctor DOCTOR req w /\
  creates_only_for_admin register_nurse NURSE req w /\
  creates_only_for_admin register_receptionist RECEPTIONIST req w /\
  register_doctor req w = role_required (py "ADMIN") (register_user (py "DOCTOR")) req w /\
  register_nurse req w = role_required (py "ADMIN") (register_user (py "NURSE")) req w /\
  register_receptionist req w
    = role_required (py "ADMIN") (register_user (py "RECEPTIONIST")) req w.
Proof.
  assert (Hjwt : forall fn r,
            creates_only_for_admin (role_required (py "ADMIN") fn) r req w ->
            creates_only_for_admin (jwt_required (role_required (py "ADMIN") fn)) r req w).
  { intros fn r. unfold creates_only_for_admin.
    by rewrite !run_snd, !jwt_required_role_required. }
  split. { apply gated_creates; [done | apply register_admin_body_effect]. }
  split. { apply Hjwt, gated_creates; [done |]. by apply register_user_creates. }
  split. { apply Hjwt, gated_creates; [done |]. by apply register_user_creates. }
  split. { apply Hjwt, gated_creates; [done |]. by apply register_user_creates. }
  split; [| split]; apply jwt_required_role_required.
Qed.

End Gate.

Section LoginOutcomes.

Context `{C : Collaborators}.

Lemma first_by_email_some rows e u :
  first_by_email rows (Some e) = Some u -> u ∈ rows /\ email u = e.
Proof.
  unfold first_by_email. intros H. apply find_some in H as [Hin Heq].
  split; [by apply list_elem_of_In |].
  unfold str_eqb in Heq. by apply bool_decide_eq_true in Heq.
Qed.


End LoginOutcomes.

Section SampleRegistrationEffects.

#[local] Existing Instance Sample.collaborators.

(** A sign-up without a password. *)
Lemma register_missing_password_witness :
  let req := Sample.post [("email"%string, py "a@example.com");
                          ("phone"%string, py "0712345678");
                          ("userfullnames"%string, py "Jane Doe")] in
  run (register req) Sample.empty_world = (Uncaught TypeError, Sample.empty_world) /\
  run (register_admin_body req) Sample.empty_world = (Uncaught TypeError, Sample.empty_world).
Proof.
  intros req.
  apply (register_missing_password req Sample.empty_world); by vm_compute.
Defined.

End SampleRegistrationEffects.

Section RoundTrips.

Context `{C : Collaborators}.

Lemma first_by_email_snoc rows u :
  first_by_email rows (Some (email u)) = None ->
  first_by_email (rows ++ [u]) (Some (email u)) = Some u.
Proof.
  unfold first_by_email. induction rows as [|v rows IH]; cbn.
  - intros _. unfold str_eqb. by rewrite bool_decide_eq_true_2.
  - destruct (str_eqb (email v) (email u)); [discriminate | exact IH].
Qed.

Lemma validate_password_nonempty nd pw : validate_password nd pw = true -> pw <> [].
Proof. by intros H ->. Qed.

(** X9. An account that [register] has just created can log in: when
    [check_password_hash] accepts a password against its own
    [generate_password_hash], the registration request, sent to [login]
    next, is answered 200 with the access token of the new account, whose
    role is PATIENT. *)
Theorem register_then_login (req : Request) (w : World) :
  (run (register req) w).1
    = Respond (Response 201 (msg "User registered successfully")) ->
  truthy (get_json req !! "email"%string) = true ->
  (forall p, check_password_hash (generate_password_hash p) p = true) ->
  exists u,
    db (run (register req) w).2 = db w ++ [u] /\
    role u = PATIENT /\
    Some (email u) = get_json req !! "email"%string /\
    (run (login req) (run (register req) w).2).1 =
      Respond (Response 200
        (JObj [("message"%string, JStr (py "Login successful"));
               ("access_token"%string, JStr (generate_token u));
               ("user"%string,
                JObj [("id"%string, JNum (id u));
                      ("email"%string, JStr (email u));
                      ("role"%string, JStr (role_value PATIENT))])])).
Proof.
  intros Hcreated Hemail Hlaw.
  rewrite register_run in *. cbv zeta in *.
  destruct (is_valid_email _) as [[|] | e]; [| done..].
  destruct (negb _ || negb _); [done |].
  destruct (get_json req !! "password"%string) as [pw |] eqn:Hpw; [| done].
  cbn [validate_password_arg generate_password_hash_arg] in *.
  destruct (validate_password unicode_Nd pw) eqn:Hvalid; [| done].
  apply validate_password_encodable in Hvalid as Henc.
  unfold generate_password_hash_call in *. rewrite Henc in *.
  destruct (found _ || found _); [done |].
  destruct (insert_row _ _) as [[rows u] | e] eqn:Hins; [| done].
  pose proof (insert_row_appends _ _ _ _ Hins) as ->.
  pose proof Hins as Hfree. apply insert_row_ok in Hfree as (_ & _ & _ & _ & _ & _ & _ & Hfe & _).
  apply insert_row_new_user in Hins as (He & _ & _ & Hh & Hr & _).
  change (role_of_name (py "PATIENT")) with (Some PATIENT) in Hr. injection Hr as Hr.
  exists u. split; [done |]. split; [done |]. split; [done |].
  rewrite login_run. cbv zeta. cbn [fst snd db set_db].
  rewrite Hpw, Hemail, He. cbn [truthy negb orb].
  destruct pw as [|c pw]; [by apply validate_password_nonempty in Hvalid |].
  cbn [truthy negb orb from_option Datatypes.id].
  rewrite (first_by_email_snoc _ _ Hfe). unfold check_password_hash_call.
  rewrite Henc, Hh, Hlaw, <- Hr. done.
Qed.

Lemma lookup_map {A B} (f : A -> B) (l : list A) (i : nat) :
  List.map f l !! i = f <$> (l !! i).
Proof.
  revert i. induction l as [|x l IH]; intros [|i]; cbn; try done.
Qed.

Lemma table_ok_same_id rows u v :
  table_ok rows -> u ∈ rows -> v ∈ rows -> id u = id v -> u = v.
Proof.
  intros (Hid & _ & _). induction rows as [|x rows IH]; intros Hu Hv Heq.
  - by apply elem_of_nil in Hu.
  - cbn in Hid. apply NoDup_cons in Hid as [Hx Hid].
    assert (Hnot : forall y, y ∈ rows -> id y <> id x).
    { intros y Hy Hyx. apply Hx. rewrite <- Hyx.
      apply list_elem_of_In, in_map, list_elem_of_In, Hy. }
    apply elem_of_cons in Hu as [-> | Hu]; apply elem_of_cons in Hv as [-> | Hv].
    + done.
    + by destruct (Hnot v Hv).
    + by destruct (Hnot u Hu).
    + by apply IH.
Qed.

Lemma first_by_email_with_password rows user h e :
  first_by_email (rows_with_password rows user h) (Some e)
  = (fun u => if id u =? id user then with_password h u else u)
      <$> first_by_email rows (Some e).
Proof.
  unfold first_by_email, rows_with_password.
  induction rows as [|v rows IH]; [done |]. cbn.
  assert (Hemail : email (if id v =? id user then with_password h v else v) = email v)
    by (by destruct (id v =? id user)).
  rewrite Hemail. destruct (str_eqb (email v) e); [done | exact IH].
Qed.

(** X10. A password reset that answers 200, on a table whose primary keys
    are distinct, replaces the password of the account named by the token
    with the hash of the new password and touches nothing else: every
    other row, the account's other columns and the session are as before.
    The account can then log in with the new password when
    [check_password_hash] accepts a password against its own hash. *)
Theorem reset_password_effect (token : pystr) (req : Request) (w : World) :
  table_ok (db w) ->
  (run (reset_password token req) w).1
    = Respond (Response 200 (msg "Password reset successful")) ->
  let w' := (run (reset_password token req) w).2 in
  exists user pw ts,
    timed_unsign (py "reset-password-salt") token = Ok (email user, ts) /\
    user ∈ db w /\
    get_json req !! "password"%string = Some pw /\
    (6 <= length pw)%nat /\
    session w' = session w /\
    (forall i v, db w !! i = Some v ->
       db w' !! i = Some (if bool_decide (v = user)
                          then with_password (generate_password_hash pw) user else v)) /\
    (forall req2,
       (forall p, check_password_hash (generate_password_hash p) p = true) ->
       email user <> [] ->
       get_json req2 !! "email"%string = Some (email user) ->
       get_json req2 !! "password"%string = Some pw ->
       exists r, (run (login req2) w').1 = Respond r /\ status r = 200).
Proof.
  intros Hok Hdone w'. subst w'. rewrite reset_password_run in *.
  destruct (timed_unsign _ _) as [[payload ts] | e] eqn:Hsig; [| done].
  cbn [fst snd] in *.
  destruct ((now w - ts >? 3600) || (now w - ts <? 0)) eqn:Hage; [done |]. cbv zeta in *.
  destruct (get_json req !! "password"%string) as [pw |] eqn:Hpw; [| done].
  destruct pw as [|c pw]; [done |]. cbn [truthy negb orb from_option Datatypes.id] in *.
  destruct (length (c :: pw) <? 6)%nat eqn:Hlen; [done |].
  destruct (first_by_email (db w) (Some payload)) as [user |] eqn:Huser; [| done].
  unfold generate_password_hash_call in *.
  destruct (encodable (c :: pw)) eqn:Henc; [| done].
  destruct (backend_commits _ _) eqn:Hcommit; [| done].
  apply first_by_email_some in Huser as Hin. destruct Hin as [Hin <-].
  exists user, (c :: pw), ts. cbn [fst snd db session set_db now].
  split; [done |]. split; [done |]. split; [done |].
  split; [by apply Nat.ltb_ge in Hlen |]. split; [done |].
  assert (Hfind : first_by_email
                    (rows_with_password (db w) user (generate_password_hash (c :: pw)))
                    (Some (email user))
                  = Some (with_password (generate_password_hash (c :: pw)) user)).
  { rewrite first_by_email_with_password, Huser. cbn. by rewrite Z.eqb_refl. }
  split.
  - intros i v Hv. unfold rows_with_password. rewrite lookup_map, Hv. cbn. f_equal.
    case_bool_decide as Heq.
    + subst v. by rewrite Z.eqb_refl.
    + destruct (Z.eqb_spec (id v) (id user)) as [Hid |]; [| done].
      destruct Heq. apply (table_ok_same_id (db w)); [done | | done | done].
      by eapply list_elem_of_lookup_2.
  - intros req2 Hlaw Hne He2 Hp2. rewrite login_run. cbv zeta.
    rewrite He2, Hp2. cbn [db set_db].
    destruct (email user) as [|d e] eqn:Hemail; [done |].
    cbn [truthy negb orb from_option Datatypes.id].
    rewrite Hfind. cbn [password with_password]. unfold check_password_hash_call.
    rewrite Henc, Hlaw. by eexists.
Qed.

End RoundTrips.

Section SampleRoundTrips.

#[local] Existing Instance Sample.collaborators.

Lemma sample_hash_law p :
  check_password_hash (generate_password_hash p) p = true.
Proof. cbn. unfold Sample.check_password_hash_impl, str_eqb. by apply bool_decide_eq_true_2. Qed.

(** Jane signs up on an empty table and logs in. *)
Lemma register_then_login_witness :
  let req := registration_request (py "jane@example.com") (py "0712345678")
               (py "abc12345") (py "Jane Doe") in
  exists u,
    db (run (register req) Sample.empty_world).2 = [u] /\
    role u = PATIENT /\
    (run (login req) (run (register req) Sample.empty_world).2).1 =
      Respond (Response 200
        (JObj [("message"%string, JStr (py "Login successful"));
               ("access_token"%string, JStr (generate_token u));
               ("user"%string,
                JObj [("id"%string, JNum (id u));
                      ("email"%string, JStr (email u));
                      ("role"%string, JStr (role_value PATIENT))])])).
Proof.
  intros req.
  assert (Hcreated : (run (register req) Sample.empty_world).1
                     = Respond (Response 201 (msg "User registered successfully")))
    by (by vm_compute).
  destruct (register_then_login req Sample.empty_world Hcreated eq_refl sample_hash_law)
    as (u & Hdb & Hrole & _ & Hlogin).
  exists u. by repeat split.
Defined.

(** The account of the sample token resets its password. *)
Lemma reset_password_effect_witness :
  let ghost := {| id := 7; userfullnames := py "G"; password := py "hash$old00000";
                  email := py "ghost@example.com"; phone_number := py "0722000000";
                  role := PATIENT |} in
  let w := {| db := [Sample.jane; ghost]; session := ∅; now := 2000 |} in
  let w' := (run (reset_password (py "signed-token") (Sample.reset_request (py "secret1"))) w).2 in
  db w' !! 0%nat = Some Sample.jane /\
  db w' !! 1%nat = Some (with_password (py "hash$secret1") ghost).
Proof.
  intros ghost w w'.
  assert (Hok : table_ok (db w)).
  { repeat split; cbn; apply NoDup_cons; (split; [| apply NoDup_singleton]);
      rewrite list_elem_of_singleton; by vm_compute. }
  assert (Hdone : (run (reset_password (py "signed-token")
                          (Sample.reset_request (py "secret1"))) w).1
                  = Respond (Response 200 (msg "Password reset successful")))
    by (by vm_compute).
  destruct (reset_password_effect (py "signed-token")
              (Sample.reset_request (py "secret1")) w Hok Hdone)
    as (user & pw & ts & _).
  split; by vm_compute.
Defined.

End SampleRoundTrips.

(** ** Redirect to the provider and back *)

Section LoginRedirect.

Context `{C : Collaborators} `{O : Outbound}.

Lemma state_rejected_iff req w state :
  state <> [] ->
  session w !! "oauth_state"%string = Some (JStr state) ->
  state_rejected req w = false <-> args req !! "state"%string = Some state.
Proof.
  intros Hne Hs. unfold state_rejected. rewrite Hs.
  assert (stored_falsy (Some (JStr state)) = false) as ->.
  { cbn. by rewrite bool_decide_eq_false_2. }
  cbn [orb]. destruct (args req !! "state"%string) as [[|c s] |]; cbn.
  - split; [discriminate | by intros [= <-]].
  - unfold str_eqb. case_bool_decide as Heq; cbn.
    + split; [by rewrite Heq | done].
    + split; [discriminate | intros [= <-]; done].
  - split; discriminate.
Qed.

Lemma google_callback_not_rejected req w :
  state_rejected req w = false ->
  (run (google_callback req) w).1 <> Respond csrf_rejection.
Proof.
  intros Hrej. rewrite google_callback_run, Hrej. cbv zeta.
  destruct (authorize_access_token req); [| differ].
  destruct (get_userinfo req) as [ui |]; [| differ].
  destruct (userinfo_unusable ui); [differ |].
  destruct (first_by_email _ _); differ.
Qed.

(** X14. After [google_login] stored a state, provided the redirect of the
    OAuth library leaves that session key alone, the session holds the
    state, and the next callback is refused with the CSRF answer exactly
    when its [state] argument is not that state; whatever the first
    callback presented, a second one is refused. *)
Theorem google_login_then_callback (state : pystr) (w : World) :
  state <> [] ->
  (forall uri st w0,
     session ((authorize_redirect uri st) w0).2 !! "oauth_state"%string
       = session w0 !! "oauth_state"%string) ->
  let w1 := (run (google_login state) w).2 in
  session w1 !! "oauth_state"%string = Some (JStr state) /\
  (forall req,
     (run (google_callback req) w1).1 = Respond csrf_rejection <->
     args req !! "state"%string <> Some state) /\
  (forall req req2,
     (run (google_callback req2) (run (google_callback req) w1).2).1
       = Respond csrf_rejection).
Proof.
  intros Hne Hkeeps w1.
  assert (Hstored : session w1 !! "oauth_state"%string = Some (JStr state)).
  { subst w1. rewrite run_snd. unfold google_login. unfold_m.
    rewrite Hkeeps. cbn. apply lookup_insert_eq. }
  split; [done |]. split.
  - intros req. split.
    + intros Hcsrf Hsame. apply (state_rejected_iff req w1 state Hne Hstored) in Hsame.
      by apply google_callback_not_rejected in Hsame.
    + intros Hdiff. destruct (state_rejected req w1) eqn:Hrej.
      * by rewrite google_callback_rejects.
      * by apply (state_rejected_iff req w1 state Hne Hstored) in Hrej.
  - intros req req2. rewrite google_callback_rejects; [done |].
    unfold state_rejected. by rewrite google_callback_consumes.
Qed.

End LoginRedirect.

Section SampleLoginRedirect.

#[local] Existing Instance Signed.collaborators.
#[local] Existing Instance Signed.outbound.

(** A login that drew the state ["n-7"], and the callbacks after it. *)
Lemma google_login_then_callback_witness :
  let w1 := (run (google_login (py "n-7")) Sample.jane_world).2 in
  session w1 !! "oauth_state"%string = Some (JStr (py "n-7")) /\
  (run (google_callback (Sample.callback_request (py "n-8"))) w1).1
    = Respond csrf_rejection.
Proof.
  intros w1.
  assert (Hne : py "n-7" <> []) by (by vm_compute).
  assert (Hkeeps : forall uri st w0,
            session ((authorize_redirect uri st) w0).2 !! "oauth_state"%string
              = session w0 !! "oauth_state"%string).
  { intros uri st w0. unfold authorize_redirect, Signed.outbound,
      Signed.authorize_redirect_impl. unfold_m. cbn [snd session set_session].
    by rewrite lookup_insert_ne. }
  destruct (google_login_then_callback (py "n-7") Sample.jane_world Hne Hkeeps)
    as (Hs & Hiff & _).
  split; [exact Hs |].
  apply Hiff. by vm_compute.
Defined.

End SampleLoginRedirect.

(** ** Forgotten passwords *)

Section Forgot.

Context `{C : Collaborators} `{O : Outbound}.


Lemma reset_password_redeem token req w payload ts user pw :
  timed_unsign (py "reset-password-salt") token = Ok (payload, ts) ->
  0 <= now w - ts <= 3600 ->
  get_json req !! "password"%string = Some pw ->
  (6 <= length pw)%nat ->
  encodable pw = true ->
  first_by_email (db w) (Some payload) = Some user ->
  backend_commits (db w) (rows_with_password (db w) user (generate_password_hash pw)) = true ->
  run (reset_password token req) w =
    (Respond (Response 200 (msg "Password reset successful")),
     set_db (rows_with_password (db w) user (generate_password_hash pw)) w).
Proof.
  intros Hsig [Hnonneg Hfresh] Hpw Hlen Henc Huser Hcommit.
  rewrite reset_password_run, Hsig. cbn [fst snd].
  assert ((now w - ts >? 3600) = false) as ->
    by (rewrite Z.gtb_ltb; apply Z.ltb_ge; lia).
  assert ((now w - ts <? 0) = false) as -> by (apply Z.ltb_ge; lia).
  cbn [orb]. cbv zeta. rewrite Hpw.
  destruct pw as [|c pw]; [cbn in Hlen; lia |].
  cbn [truthy negb orb from_option Datatypes.id].
  apply Nat.ltb_ge in Hlen. rewrite Hlen, Huser. unfold generate_password_hash_call.
  by rewrite Henc, Hcommit.
Qed.

(** X16. With a serializer whose tokens read back as the payload and the
    time of signing, and a backend that commits, the token mailed by
    [forgot_password] at time [t] for an account resets that account's
    password when redeemed, at any time from [t] to [t + 3600], with a
    password of at least six characters that can be encoded, and is refused
    as invalid or expired after that. The token is not used up: within the
    hour it can be redeemed again, by anyone who holds it, to set yet
    another such password. *)
Theorem forgot_then_reset (e : pystr) (t : Z) :
  (forall x s, timed_unsign (py "reset-password-salt")
                 (serializer_dumps (py "reset-password-salt") x s) = Ok (x, s)) ->
  (forall rows rows', backend_commits rows rows' = true) ->
  let token := serializer_dumps (py "reset-password-salt") e t in
  message_body (reset_mail e t) =
    py "Click the link to reset your password: " ++ url_for_reset_password token /\
  (forall req w,
     3600 < now w - t ->
     run (reset_password token req) w = (Respond invalid_or_expired, w)) /\
  (forall req w user pw,
     0 <= now w - t <= 3600 ->
     get_json req !! "password"%string = Some pw ->
     (6 <= length pw)%nat ->
     encodable pw = true ->
     first_by_email (db w) (Some e) = Some user ->
     let w' := set_db (rows_with_password (db w) user (generate_password_hash pw)) w in
     run (reset_password token req) w
       = (Respond (Response 200 (msg "Password reset successful")), w') /\
     first_by_email (db w') (Some e)
       = Some (with_password (generate_password_hash pw) user) /\
     (forall req2 pw2,
        get_json req2 !! "password"%string = Some pw2 ->
        (6 <= length pw2)%nat ->
        encodable pw2 = true ->
        (run (reset_password token req2) w').1
          = Respond (Response 200 (msg "Password reset successful")))).
Proof.
  intros Hlaw Hcommit token. split; [done |]. split.
  - intros req w Hold. rewrite reset_password_run. subst token. rewrite Hlaw.
    cbn [fst snd]. apply Z.gtb_lt in Hold. by rewrite Hold.
  - intros req w user pw Hage Hpw Hlen Henc Huser w'.
    assert (Hfind : first_by_email (db w') (Some e)
                    = Some (with_password (generate_password_hash pw) user)).
    { subst w'. cbn [db set_db]. rewrite first_by_email_with_password, Huser. cbn.
      by rewrite Z.eqb_refl. }
    assert (Hsig : timed_unsign (py "reset-password-salt") token = Ok (e, t))
      by (subst token; apply Hlaw).
    split; [| split; [done |]].
    + by apply (reset_password_redeem token req w e t user pw).
    + intros req2 pw2 Hpw2 Hlen2 Henc2.
      by rewrite (reset_password_redeem token req2 w' e t
                    (with_password (generate_password_hash pw) user) pw2).
Qed.

End Forgot.

Section PasswordRules.

Context `{C : Collaborators}.

Lemma validate_password_length nd pw : validate_password nd pw = true -> (8 <= length pw)%nat.
Proof.
  intros H. apply validate_password_spec in H as (b & [-> | ->] & Hlen & _); [done |].
  rewrite length_app. lia.
Qed.

(** X17. The two password rules differ. Whatever [validate_password]
    accepts has at least eight characters and so passes the length test of
    [reset_password]; but a password of six or seven characters, which
    [register] answers with 400 "Password must be at least 8 characters
    long, contain letters and numbers" once email and phone have passed, is
    stored by [reset_password]: when the password can be encoded, the token
    is valid and not older than 3600 seconds, an account has the email of
    the token and the commit succeeds, the answer is 200 and the account's
    password is the hash of that short password. *)
Theorem reset_password_weaker_rule (pw : pystr) :
  (validate_password unicode_Nd pw = true ->
   negb (truthy (Some pw)) || (length pw <? 6)%nat = false) /\
  ((6 <= length pw < 8)%nat ->
   (forall req w,
      get_json req !! "password"%string = Some pw ->
      is_valid_email (get_json req !! "email"%string) = Ok true ->
      truthy (get_json req !! "phone"%string) = true ->
      is_valid_safaricom_phone (get_json req !! "phone"%string) = true ->
      run (register req) w =
        (Respond (Response 400
           (msg "Password must be at least 8 characters long, contain letters and numbers")),
         w)) /\
   (forall token req w payload ts user,
      get_json req !! "password"%string = Some pw ->
      timed_unsign (py "reset-password-salt") token = Ok (payload, ts) ->
      0 <= now w - ts <= 3600 ->
      encodable pw = true ->
      first_by_email (db w) (Some payload) = Some user ->
      backend_commits (db w)
        (rows_with_password (db w) user (generate_password_hash pw)) = true ->
      run (reset_password token req) w =
        (Respond (Response 200 (msg "Password reset successful")),
         set_db (rows_with_password (db w) user (generate_password_hash pw)) w))).
Proof.
  split.
  - intros Hvalid. apply validate_password_length in Hvalid.
    destruct pw as [|c pw]; [cbn in Hvalid; lia |]. cbn [truthy negb orb].
    apply Nat.ltb_ge. lia.
  - intros [Hlo Hhi]. split.
    + intros req w Hpw Hemail Htruthy Hphone. rewrite register_run. cbv zeta.
      rewrite Hpw, Hemail, Htruthy, Hphone. cbn [negb orb validate_password_arg].
      destruct (validate_password unicode_Nd pw) eqn:Hvalid; [| done].
      apply validate_password_length in Hvalid. lia.
    + intros token req w payload ts user Hpw Hsig Hage Henc Huser Hcommit.
      by apply (reset_password_redeem token req w payload ts user pw).
Qed.

End PasswordRules.

Section SamplePasswordRules.

#[local] Existing Instance Sample.collaborators.

(** The seven characters [secret1]: refused at sign-up, stored by a reset
    for the account the sample token names. *)
Lemma reset_password_weaker_rule_witness :
  let ghost := {| id := 7; userfullnames := py "G"; password := py "hash$old00000";
                  email := py "ghost@example.com"; phone_number := py "0722000000";
                  role := PATIENT |} in
  let w := {| db := [ghost]; session := ∅; now := 2000 |} in
  run (register (registration_request (py "jane@example.com") (py "0712345678")
                   (py "secret1") (py "Jane Doe"))) w
    = (Respond (Response 400
         (msg "Password must be at least 8 characters long, contain letters and numbers")),
       w) /\
  run (reset_password (py "signed-token") (Sample.reset_request (py "secret1"))) w
    = (Respond (Response 200 (msg "Password reset successful")),
       set_db [with_password (py "hash$secret1") ghost] w).
Proof.
  intros ghost w.
  destruct (reset_password_weaker_rule (py "secret1")) as (_ & Hshort).
  destruct (Hshort ltac:(vm_compute; lia)) as (Hregister & Hreset).
  split.
  - apply Hregister; by vm_compute.
  - assert (Hage : 0 <= now w - 1000 <= 3600) by (cbn; lia).
    assert (Henc : encodable (py "secret1") = true) by (by vm_compute).
    exact (Hreset (py "signed-token") (Sample.reset_request (py "secret1")) w
             (py "ghost@example.com") 1000 ghost eq_refl eq_refl Hage Henc eq_refl eq_refl).
Defined.

End SamplePasswordRules.

Section SampleForgot.

#[local] Existing Instance Signed.collaborators.
#[local] Existing Instance Signed.outbound.

Lemma signed_token_law x s :
  timed_unsign (py "reset-password-salt")
    (serializer_dumps (py "reset-password-salt") x s) = Ok (x, s).
Proof.
  cbn. unfold Signed.serializer_dumps_impl. cbn. f_equal. f_equal.
  destruct (Z.ltb_spec s 0); cbn; lia.
Qed.

(** Jane asks for a reset link at time 2000 and redeems it at time 2600,
    and again at time 5601. *)
Lemma forgot_then_reset_witness :
  let token := serializer_dumps (py "reset-password-salt") (py "jane@example.com") 2000 in
  let soon := {| db := [Sample.jane]; session := ∅; now := 2600 |} in
  let late := {| db := [Sample.jane]; session := ∅; now := 5601 |} in
  (forgot_password (Sample.login_request (py "jane@example.com") []) Sample.jane_world []).2
    = [reset_mail (py "jane@example.com") 2000] /\
  run (reset_password token (Sample.reset_request (py "secret1"))) soon
    = (Respond (Response 200 (msg "Password reset successful")),
       set_db [with_password (py "hash$secret1") Sample.jane] soon) /\
  run (reset_password token (Sample.reset_request (py "secret1"))) late
    = (Respond invalid_or_expired, late).
Proof.
  intros token soon late.
  destruct (forgot_then_reset (py "jane@example.com") 2000 signed_token_law
              (fun _ _ => eq_refl)) as (_ & Hlate & Hsoon).
  split; [by vm_compute |]. split.
  - assert (Hlen : (6 <= length (py "secret1"))%nat) by (vm_compute; lia).
    assert (Hage : 0 <= now soon - 2000 <= 3600) by (cbn; lia).
    assert (Henc : encodable (py "secret1") = true) by (by vm_compute).
    exact (proj1 (Hsoon (Sample.reset_request (py "secret1")) soon Sample.jane
                    (py "secret1") Hage eq_refl Hlen Henc eq_refl)).
  - apply Hlate. cbn. lia.
Defined.

End SampleForgot.

(** ** Registering twice, and requests without a token *)

Section Twice.

Context `{C : Collaborators}.

(** X18. Once [register] has answered 201 to a request, the same request
    sent again is answered 400 "Email or phone number already registered"
    and adds nothing; and so is any other valid request that reuses the
    email, or the phone number as it was written, of the first. *)
Theorem register_twice (req : Request) (w : World) :
  (run (register req) w).1
    = Respond (Response 201 (msg "User registered successfully")) ->
  let w' := (run (register req) w).2 in
  run (register req) w' = (Respond already_registered, w') /\
  (forall req2,
     fields_pass_validation req2 ->
     get_json req2 !! "email"%string = get_json req !! "email"%string \/
     get_json req2 !! "phone"%string = get_json req !! "phone"%string ->
     run (register req2) w' = (Respond already_registered, w')).
Proof.
  intros Hcreated w'.
  assert (Hrow : fields_pass_validation req /\
                 exists u, u ∈ db w' /\
                           get_json req !! "email"%string = Some (email u) /\
                           get_json req !! "phone"%string = Some (phone_number u)).
  { subst w'. rewrite register_run in *. cbv zeta in *. unfold fields_pass_validation.
    destruct (is_valid_email _) as [[|] | e]; [| done..].
    destruct (truthy _); [| done]. cbn [negb orb] in *.
    destruct (is_valid_safaricom_phone _); [| done]. cbn [negb] in *.
    destruct (validate_password_arg _) as [[|] | e]; [| done..].
    destruct (found _ || found _); [done |].
    destruct (generate_password_hash_arg _) as [h | e]; [| done].
    destruct (insert_row _ _) as [[rows u] | e] eqn:Hins; [| done].
    split; [done |].
    pose proof (insert_row_appends _ _ _ _ Hins) as ->.
    apply insert_row_new_user in Hins as (He & Hp & _).
    exists u. cbn [snd db set_db]. split; [| done].
    apply elem_of_app. right. by apply list_elem_of_singleton. }
  destruct Hrow as (Hvalid & u & Hin & He & Hp).
  assert (Hconflict : forall req2,
            fields_pass_validation req2 ->
            get_json req2 !! "email"%string = get_json req !! "email"%string \/
            get_json req2 !! "phone"%string = get_json req !! "phone"%string ->
            run (register req2) w' = (Respond already_registered, w')).
  { intros req2 (Hemail & Htruthy & Hcarrier & Hpw) Hsame.
    rewrite register_run. cbv zeta. rewrite Hemail, Htruthy, Hcarrier, Hpw.
    cbn [negb orb]. rewrite duplicate_found; [done |].
    exists u. split; [done |]. destruct Hsame as [-> | ->]; auto. }
  split; [| exact Hconflict].
  apply Hconflict; auto.
Qed.

(** X11. A request whose token does not verify gets no further than the
    decorator: the exception of the JWT library leaves [role_required], and
    [jwt_required] around it, before the wrapped function runs, and the
    state is unchanged. *)
Theorem unverified_token_stops_at_gate (req : Request) (w : World) (e : exn) :
  verify_jwt_in_request req = Raise e ->
  forall required fn,
    run (role_required required fn req) w = (Uncaught e, w) /\
    run (jwt_required (role_required required fn) req) w = (Uncaught e, w) /\
    run (register_admin req) w = (Uncaught e, w) /\
    run (register_doctor req) w = (Uncaught e, w).
Proof.
  intros Hjwt required fn.
  assert (Hgate : forall r f, run (role_required r f req) w = (Uncaught e, w)).
  { intros r f. unfold role_required. rewrite Hjwt. by unfold_m. }
  assert (Hboth : forall r f, run (jwt_required (role_required r f) req) w = (Uncaught e, w)).
  { intros r f. unfold run. rewrite jwt_required_role_required. apply Hgate. }
  split; [apply Hgate |]. split; [apply Hboth |]. split; [apply Hgate | apply Hboth].
Qed.

End Twice.

Section SampleTwice.

#[local] Existing Instance Sample.collaborators.

(** Jane signs up twice. *)
Lemma register_twice_witness :
  let req := registration_request (py "jane@example.com") (py "0712345678")
               (py "abc12345") (py "Jane Doe") in
  let w' := (run (register req) Sample.empty_world).2 in
  length (db w') = 1%nat /\
  run (register req) w' = (Respond already_registered, w').
Proof.
  intros req w'.
  assert (Hcreated : (run (register req) Sample.empty_world).1
                     = Respond (Response 201 (msg "User registered successfully")))
    by (by vm_compute).
  split; [by vm_compute |].
  exact (proj1 (register_twice req Sample.empty_world Hcreated)).
Defined.

(** A request to an admin view without a token. *)
Lemma unverified_token_stops_at_gate_witness :
  run (register_admin (Sample.post [])) Sample.empty_world
    = (Uncaught (OtherError "NoAuthorizationError"), Sample.empty_world) /\
  run (register_doctor (Sample.post [])) Sample.empty_world
    = (Uncaught (OtherError "NoAuthorizationError"), Sample.empty_world).
Proof.
  assert (Hjwt : verify_jwt_in_request (Sample.post [])
                 = Raise (OtherError "NoAuthorizationError")) by reflexivity.
  destruct (unverified_token_stops_at_gate (Sample.post []) Sample.empty_world
              (OtherError "NoAuthorizationError") Hjwt (py "ADMIN")
              register_admin_body)
    as (_ & _ & Ha & Hd).
  split; [exact Ha | exact Hd].
Defined.

End SampleTwice.
